(** * aicoach: the chat endpoint, its retrieval tool and its message adapter

    A shallow embedding of
    - [lib/langchain_message_converter.ts]
      ([convertVercelMessagesToLangChainMessages]),
    - [app/api/chat/route.ts] ([createSearchTool] and the [POST] handler),
    followed by the properties the specification states about them.

    JavaScript strings are sequences of UTF-16 code units, calls that can
    throw live in a small trace-and-exception monad, and everything the
    handlers reach outside the process (console, document store, model and
    store clients) is an event of the trace. *)

From Stdlib Require Import NArith Ascii String.
From stdpp Require Import base option list strings pretty gmap.

Local Open Scope N_scope.
Local Open Scope nat_scope.

(** ** JavaScript values the code manipulates *)

Module JS.

(** A string is its sequence of UTF-16 code units. *)
Definition jsstring : Type := list N.

(** A string literal of the source, for literals without escapes. *)
Definition lit (s : string) : jsstring :=
  (fun a => N_of_ascii a) <$> list_ascii_of_string s.

Definition LF : N := 10%N.
Definition DQUOTE : N := 34%N.

(** [WhiteSpace] and [LineTerminator] of ECMAScript, the code units that
    [String.prototype.trim] strips. *)
Definition is_whitespace (c : N) : bool :=
  (  (9 <=? c) && (c <=? 13)          (* TAB, LF, VT, FF, CR *)
  || (c =? 32) || (c =? 160)          (* SP, NBSP *)
  || (c =? 5760)                      (* U+1680 *)
  || (8192 <=? c) && (c <=? 8202)     (* U+2000 .. U+200A *)
  || (c =? 8232) || (c =? 8233)       (* U+2028, U+2029 *)
  || (c =? 8239) || (c =? 8287)       (* U+202F, U+205F *)
  || (c =? 12288) || (c =? 65279)     (* U+3000, U+FEFF *) )%N.

Fixpoint trimStart (s : jsstring) : jsstring :=
  match s with
  | c :: s' => if is_whitespace c then trimStart s' else s
  | [] => []
  end.

Definition trimEnd (s : jsstring) : jsstring :=
  reverse (trimStart (reverse s)).

(** [s.trim()] *)
Definition trim (s : jsstring) : jsstring := trimEnd (trimStart s).

(** [parts.join(sep)] on an array of strings. *)
Fixpoint join (sep : jsstring) (parts : list jsstring) : jsstring :=
  match parts with
  | [] => []
  | [p] => p
  | p :: rest => p ++ sep ++ join sep rest
  end.

(** Truthiness of a property that holds a string when it is present:
    [undefined] and the empty string are falsy. *)
Definition truthy (v : option jsstring) : bool :=
  match v with
  | Some (_ :: _) => true
  | _ => false
  end.

(** [a || b] on such values. *)
Definition or_else (v : option jsstring) (d : jsstring) : jsstring :=
  match v with
  | Some (c :: s) => c :: s
  | _ => d
  end.

(** [`${v}`]: interpolation into a template literal. *)
Definition interpolate (v : option jsstring) : jsstring :=
  match v with
  | Some s => s
  | None => lit "undefined"
  end.

(** A thrown value, as the [catch] clauses of the source use it: an object
    (an [Error] in the libraries called) of which only [message] is read. *)
Record Error : Type := mkError { message : option jsstring }.

(** Does [s] begin with [p]? *)
Fixpoint startsWith (p s : jsstring) : bool :=
  match p, s with
  | [], _ => true
  | _ :: _, [] => false
  | a :: p', b :: s' => (a =? b)%N && startsWith p' s'
  end.

(** Number of positions of [s] at which [p] occurs. *)
Fixpoint occurrences (p s : jsstring) : nat :=
  match s with
  | [] => 0
  | _ :: s' => (if startsWith p s then 1 else 0) + occurrences p s'
  end.

Definition includes (p s : jsstring) : bool :=
  negb (occurrences p s =? 0).

End JS.

Export JS (jsstring).

(** ** Effects *)

(** The internal messages of [@langchain/core/messages] that the adapter
    builds; a constructor records the [content] it was given. *)
Inductive BaseMessage : Type :=
  | HumanMessage (content : option jsstring)
  | AIMessage (content : option jsstring).

(** What one agent run receives: [{ input, chat_history }]. *)
Record AgentInput : Type := mkAgentInput {
  input : jsstring;
  chat_history : list BaseMessage
}.

(** The calls [POST] makes into the store and model libraries, in the
    order of the source. *)
Inductive UpstreamCall : Type :=
  | CreateClient (url key : jsstring)
  | NewOpenAIEmbeddings (apiKey : jsstring)
  | NewChatOpenAI (apiKey : jsstring)
  | NewSupabaseVectorStore
  | AsRetriever
  | PromptFromMessages
  | CreateOpenAIToolsAgent
  | NewAgentExecutor
  | StreamEvents (run : AgentInput)
  | ToDataStream.

Inductive Effect : Type :=
  | ConsoleLog (text : jsstring)
  | ConsoleWarn (text : jsstring)
  | ConsoleError (text : jsstring) (e : JS.Error)
  | GetRelevantDocuments (query : jsstring)
  | Upstream (call : UpstreamCall).

Inductive Outcome (A : Type) : Type :=
  | Returned (a : A)
  | Thrown (e : JS.Error).
Arguments Returned {A} a.
Arguments Thrown {A} e.

(** A computation: the events it performed, in order, and how it ended. *)
Definition M (A : Type) : Type := list Effect * Outcome A.

Definition trace {A} (m : M A) : list Effect := m.1.
Definition outcome {A} (m : M A) : Outcome A := m.2.

Definition emit (ev : Effect) : M unit := ([ev], Returned tt).
Definition throw {A} (e : JS.Error) : M A := ([], Thrown e).

#[global] Instance M_ret : MRet M := fun A a => ([], Returned a).

#[global] Instance M_bind : MBind M := fun A B k m =>
  match m with
  | (t, Returned a) => let '(t', r) := k a in (t ++ t', r)
  | (t, Thrown e) => (t, Thrown e)
  end.

(** [try { m } catch (e) { h e }] *)
Definition try_catch {A} (m : M A) (h : JS.Error → M A) : M A :=
  match m with
  | (t, Thrown e) => let '(t', r) := h e in (t ++ t', r)
  | (t, Returned a) => (t, Returned a)
  end.

(** [xs.map(f)] with a callback that has effects: left to right. *)
Fixpoint mapM {A B} (f : A → M B) (xs : list A) : M (list B) :=
  match xs with
  | [] => mret []
  | x :: xs' => y ← f x; ys ← mapM f xs'; mret (y :: ys)
  end.

(** ** lib/langchain_message_converter.ts *)

(** A message of the client's list. The fields are strings when present;
    the JSON the client sends may leave either out. *)
Record VercelChatMessage : Type := mkMessage {
  role : option jsstring;
  content : option jsstring
}.

Definition convertMessage (message : VercelChatMessage) : M BaseMessage :=
  if decide (role message = Some (JS.lit "user")) then
    mret (HumanMessage (content message))
  else if decide (role message = Some (JS.lit "assistant")) then
    mret (AIMessage (content message))
  else
    _ ← emit (ConsoleWarn (JS.lit "Unknown message role during conversion: "
                             ++ JS.interpolate (role message)));
    mret (HumanMessage (Some (JS.lit "Unknown role: "
                                ++ JS.interpolate (content message)))).

Definition convertVercelMessagesToLangChainMessages
    (messages : list VercelChatMessage) : M (list BaseMessage) :=
  mapM convertMessage messages.

(** The callback on an element of an array that came out of [JSON.parse]
    unchecked. The element can be [null] ([None]), and reading [message.role]
    then throws a [TypeError]; an element that is not an object has neither
    [role] nor [content] and is read like an object without them. *)
Definition null_role_error : JS.Error :=
  JS.mkError (Some (JS.lit "Cannot read properties of null (reading 'role')")).

Definition convertElement (element : option VercelChatMessage) : M BaseMessage :=
  match element with
  | None => throw null_role_error
  | Some message => convertMessage message
  end.

(** [convertVercelMessagesToLangChainMessages] on such an array: the map
    stops at the first element on which the callback throws. *)
Definition convertJsonMessages
    (elements : list (option VercelChatMessage)) : M (list BaseMessage) :=
  mapM convertElement elements.

(** ** app/api/chat/route.ts: the retrieval tool *)

(** A [Document] of [@langchain/core/documents]: [metadata] may be missing
    and may lack a [source]. *)
Record Metadata : Type := mkMetadata { source : option jsstring }.

Record Document : Type := mkDocument {
  pageContent : jsstring;
  metadata : option Metadata
}.

(** The retriever the tool is built on: what awaiting
    [retriever.getRelevantDocuments(query)] gives. *)
Definition BaseRetrieverInterface : Type := jsstring → Outcome (list Document).

Definition getRelevantDocuments
    (retriever : BaseRetrieverInterface) (query : jsstring) : M (list Document) :=
  ([GetRelevantDocuments query], retriever query).

(** The declared type of the tool function's parameter:
    [string | { query: string }]. *)
Inductive ToolInput : Type :=
  | InputString (s : jsstring)
  | InputObject (query : jsstring).

(** The value the function is called with at run time. The type is not
    checked there: the agent runtime passes [undefined] when the model's
    tool call carries no input, and [null] can arrive the same way. *)
Inductive ToolArgument : Type :=
  | ArgUndefined
  | ArgNull
  | ArgInput (input : ToolInput).

(** [typeof input === 'string' ? input : input.query] *)
Definition queryOf (input : ToolInput) : jsstring :=
  match input with
  | InputString s => s
  | InputObject query => query
  end.

(** The first statement of the tool function, which stands before its
    [try]: on [undefined] and [null] the read of [input.query] throws a
    [TypeError]. *)
Definition readQuery (input : ToolArgument) : M jsstring :=
  match input with
  | ArgUndefined =>
      throw (JS.mkError
               (Some (JS.lit "Cannot read properties of undefined (reading 'query')")))
  | ArgNull =>
      throw (JS.mkError
               (Some (JS.lit "Cannot read properties of null (reading 'query')")))
  | ArgInput input => mret (queryOf input)
  end.

Record DynamicTool : Type := mkDynamicTool {
  name : jsstring;
  func : ToolArgument → M jsstring
}.

Definition NO_QUERY_ERROR : jsstring :=
  JS.lit "Tool Error: No query provided. Please provide a search query for the knowledge base.".

Definition NOT_FOUND : jsstring :=
  JS.lit "No relevant information found in the knowledge base for that query.".

Definition FOUND_HEADER : jsstring :=
  JS.lit "Found the following information in the knowledge base:" ++ [JS.LF].

Definition DELIMITER : jsstring :=
  [JS.LF; JS.LF] ++ JS.lit "---" ++ [JS.LF].

Definition SEARCH_ERROR_PREFIX : jsstring :=
  JS.lit "Tool Error: An error occurred while searching the knowledge base: ".

(** [doc.metadata?.source || 'Unknown Source'] *)
Definition sourceOf (doc : Document) : jsstring :=
  JS.or_else (metadata doc ≫= source) (JS.lit "Unknown Source").

(** The callback of [docs.map]. *)
Definition formatDocument (doc : Document) : jsstring :=
  JS.lit "Source: " ++ sourceOf doc ++ [JS.LF]
    ++ JS.lit "Content: " ++ pageContent doc.

Definition quoted (s : jsstring) : jsstring := [JS.DQUOTE] ++ s ++ [JS.DQUOTE].

Definition createSearchTool (retriever : BaseRetrieverInterface) : DynamicTool :=
  {| name := JS.lit "search_knowledge_base";
     func := fun input =>
       query ← readQuery input;
       if negb (JS.truthy (Some query)) || bool_decide (JS.trim query = []) then
         mret NO_QUERY_ERROR
       else
         try_catch
           (_ ← emit (ConsoleLog
                  (JS.lit "Tool 'search_knowledge_base' called with query: "
                     ++ quoted query));
            docs ← getRelevantDocuments retriever query;
            _ ← emit (ConsoleLog
                  (JS.lit "Retrieved " ++ JS.lit (pretty (length docs))
                     ++ JS.lit " documents from vector store for query: "
                     ++ quoted query));
            if length docs =? 0 then
              mret NOT_FOUND
            else
              mret (FOUND_HEADER ++ JS.join DELIMITER (formatDocument <$> docs)))
           (fun error =>
              _ ← emit (ConsoleError
                     (JS.lit "Error in 'search_knowledge_base' tool for query "
                        ++ quoted query ++ JS.lit ":") error);
              mret (SEARCH_ERROR_PREFIX ++ JS.interpolate (JS.message error)))
  |}.

(** The tool function called with an input of its declared type. *)
Definition search_knowledge_base
    (retriever : BaseRetrieverInterface) (input : ToolInput) : M jsstring :=
  func (createSearchTool retriever) (ArgInput input).

(** The marker that announces a document in the tool's answer. *)
Definition SOURCE_MARK : jsstring := JS.lit "Source:".

(** Occurrences of the marker inside the documents' own texts, as the tool
    prints them. *)
Definition marks_within (docs : list Document) : nat :=
  sum_list ((λ doc, JS.occurrences SOURCE_MARK (sourceOf doc)
                    + JS.occurrences SOURCE_MARK (pageContent doc)) <$> docs).

(** The events of a search that reached the store and came back. *)
Definition search_events (query : jsstring) (found : nat) : list Effect :=
  [ ConsoleLog (JS.lit "Tool 'search_knowledge_base' called with query: "
                  ++ quoted query);
    GetRelevantDocuments query;
    ConsoleLog (JS.lit "Retrieved " ++ JS.lit (pretty found)
                  ++ JS.lit " documents from vector store for query: "
                  ++ quoted query) ].

(** ** app/api/chat/route.ts: the POST handler *)

(** What awaiting [req.json()] gives when the body is JSON: [null], on which
    reading [messages] throws, or a value whose [messages] property is
    missing or [null] ([None]) or is an array. Nothing checks the array
    against [VercelChatMessage[]]: an element is a message object or
    [null] ([None]). *)
Inductive Body : Type :=
  | JsonNull
  | JsonValue (messages : option (list (option VercelChatMessage))).

(** A request is used through [req.json()] only, which rejects when the
    body is not JSON. *)
Record NextRequest : Type := mkRequest { json : Outcome Body }.

(** A response body: [JSON.stringify({ error })], or the data stream of an
    agent run. *)
Inductive ResponseBody : Type :=
  | ErrorJson (error : jsstring)
  | DataStream (run : AgentInput).

Record Response : Type := mkResponse {
  status : nat;
  body : ResponseBody
}.

(** [body.messages] *)
Definition body_messages (b : Body)
    : M (option (list (option VercelChatMessage))) :=
  match b with
  | JsonNull =>
      throw (JS.mkError
               (Some (JS.lit "Cannot read properties of null (reading 'messages')")))
  | JsonValue messages => mret messages
  end.

(** [xs.slice(0, -1)] *)
Definition slice_0_minus1 {A} (xs : list A) : list A :=
  take (length xs - 1) xs.

(** [v!], a value that was checked to be there. *)
Definition the (v : option jsstring) : jsstring := default [] v.

(** The store and model libraries: which of their calls throw. *)
Definition World : Type := UpstreamCall → option JS.Error.

Definition call (world : World) (c : UpstreamCall) : M unit :=
  ([Upstream c],
   match world c with
   | Some e => Thrown e
   | None => Returned tt
   end).

Definition POST (world : World) (env : gmap string jsstring)
    (req : NextRequest) : M Response :=
  try_catch
    (body ← (([], json req) : M Body);
     messages ← body_messages body;
     let vercelMessages := default [] messages in
     if length vercelMessages =? 0 then
       mret (mkResponse 400 (ErrorJson (JS.lit "No messages provided")))
     else
       let currentInput :=
         mjoin (vercelMessages !! (length vercelMessages - 1)) ≫= content in
       if negb (JS.truthy currentInput) then
         mret (mkResponse 400
                 (ErrorJson (JS.lit "No current message content found")))
       else if negb (JS.truthy (env !! "SUPABASE_URL"))
               || negb (JS.truthy (env !! "SUPABASE_ANON_KEY"))
               || negb (JS.truthy (env !! "OPENAI_API_KEY")) then
         mret (mkResponse 500
                 (ErrorJson (JS.lit "Missing environment variables")))
       else
         _ ← call world (CreateClient (the (env !! "SUPABASE_URL"))
                                      (the (env !! "SUPABASE_ANON_KEY")));
         _ ← call world (NewOpenAIEmbeddings (the (env !! "OPENAI_API_KEY")));
         _ ← call world (NewChatOpenAI (the (env !! "OPENAI_API_KEY")));
         _ ← call world NewSupabaseVectorStore;
         _ ← call world AsRetriever;
         _ ← call world PromptFromMessages;
         _ ← call world CreateOpenAIToolsAgent;
         _ ← call world NewAgentExecutor;
         chatHistory ← convertJsonMessages (slice_0_minus1 vercelMessages);
         let run := {| input := the currentInput;
                       chat_history := chatHistory |} in
         _ ← call world (StreamEvents run);
         _ ← call world ToDataStream;
         mret (mkResponse 200 (DataStream run)))
    (fun e =>
       _ ← emit (ConsoleError (JS.lit "Chat API Error (Outer Catch in POST):") e);
       mret (mkResponse 500
               (ErrorJson
                  (JS.or_else (JS.message e)
                     (JS.lit "An unexpected error occurred in the chat API."))))).

(** Events that leave the process for the store or the model. *)
Definition is_upstream (ev : Effect) : bool :=
  match ev with
  | Upstream _ | GetRelevantDocuments _ => true
  | _ => false
  end.

(** All three of [SUPABASE_URL], [SUPABASE_ANON_KEY] and [OPENAI_API_KEY]
    are set to non-empty strings. *)
Definition configured (env : gmap string jsstring) : bool :=
  JS.truthy (env !! "SUPABASE_URL")
  && JS.truthy (env !! "SUPABASE_ANON_KEY")
  && JS.truthy (env !! "OPENAI_API_KEY").

(** A request whose body is JSON with this [messages] property, a list of
    message objects when it is there. *)
Definition request_with (messages : option (list VercelChatMessage)) : NextRequest :=
  mkRequest
    (Returned
       (JsonValue ((λ ms : list VercelChatMessage, Some <$> ms) <$> messages))).

(** A request whose body is JSON with this array as [messages]. *)
Definition request_of_array (elements : list (option VercelChatMessage)) : NextRequest :=
  mkRequest (Returned (JsonValue (Some elements))).

(** ** Concrete requests, environments and stores *)

Module Sample.

Definition msg (r c : string) : VercelChatMessage :=
  mkMessage (Some (JS.lit r)) (Some (JS.lit c)).

(** No library call fails. *)
Definition quiet : World := fun _ => None.

Definition env : gmap string jsstring :=
  <["SUPABASE_URL" := JS.lit "https://project.supabase.co"]>
  (<["SUPABASE_ANON_KEY" := JS.lit "anon-key"]>
  (<["OPENAI_API_KEY" := JS.lit "sk-key"]> ∅)).

(** The model credential is missing. *)
Definition env_no_model : gmap string jsstring :=
  <["SUPABASE_URL" := JS.lit "https://project.supabase.co"]>
  (<["SUPABASE_ANON_KEY" := JS.lit "anon-key"]> ∅).

Definition hi : VercelChatMessage := msg "assistant" "Hi".
Definition question : VercelChatMessage := msg "user" "What is our refund policy?".
Definition tool_turn : VercelChatMessage := msg "tool" "42".
Definition no_content : VercelChatMessage := mkMessage (Some (JS.lit "user")) None.


Definition doc (src text : string) : Document :=
  mkDocument (JS.lit text) (Some (mkMetadata (Some (JS.lit src)))).

(** A store with one document whose text quotes a citation. *)
Definition citing_store : BaseRetrieverInterface :=
  fun _ => Returned [doc "a.pdf" "See Source: b.pdf for details"].

Definition two_docs_store : BaseRetrieverInterface :=
  fun _ => Returned [doc "a.pdf" "alpha"; doc "b.pdf" "beta"].

Definition empty_store : BaseRetrieverInterface := fun _ => Returned [].

(** A history with a [null] element, and a body with it before the new
    turn. *)
Definition null_history : list (option VercelChatMessage) := [None].

Definition null_turn : NextRequest :=
  request_of_array (null_history ++ [Some question]).

Definition failing_store : BaseRetrieverInterface :=
  fun _ => Thrown (JS.mkError (Some (JS.lit "fetch failed"))).

End Sample.

(** ** app/api/chat/route.ts: the system prompt *)

(** [str.replace(pattern, replacement)] with a string pattern: the first
    occurrence is replaced, and a string without one comes back unchanged.
    The replacement is taken literally, as it is for a text without [$]. *)
Fixpoint replace (pattern replacement s : jsstring) : jsstring :=
  if JS.startsWith pattern s then replacement ++ drop (length pattern) s
  else match s with
       | [] => []
       | c :: s' => c :: replace pattern replacement s'
       end.

Definition USER_NAME : jsstring := JS.lit "Alex".

Definition AGENT_SYSTEM_PROMPT_TEMPLATE : jsstring :=
  JS.lit "You are a conversational coach trained to get provide helpful professional answers. For any sales related questions, use the provided search tool to find the most relevant information. If the search does not reveal any relevant information, then provide a general answer based on your training.".

(** [AGENT_SYSTEM_PROMPT_TEMPLATE.replace("{USER_NAME}", name)], the content
    of the system message; [POST] calls it with [USER_NAME]. *)
Definition systemPromptContent (name : jsstring) : jsstring :=
  replace (JS.lit "{USER_NAME}") name AGENT_SYSTEM_PROMPT_TEMPLATE.

(** ** Reading a trace *)

(** The library calls of a trace, in order. *)
Definition upstream_calls (t : list Effect) : list UpstreamCall :=
  omap (λ ev, match ev with Upstream c => Some c | _ => None end) t.

(** The queries sent to the document store, in order. *)
Definition store_queries (t : list Effect) : list jsstring :=
  omap (λ ev, match ev with GetRelevantDocuments q => Some q | _ => None end) t.

(** The library calls of [POST] on a request that passed its checks, in
    the order of the source. *)
Definition upstream_plan (env : gmap string jsstring) (run : AgentInput)
    : list UpstreamCall :=
  [ CreateClient (the (env !! "SUPABASE_URL")) (the (env !! "SUPABASE_ANON_KEY"));
    NewOpenAIEmbeddings (the (env !! "OPENAI_API_KEY"));
    NewChatOpenAI (the (env !! "OPENAI_API_KEY"));
    NewSupabaseVectorStore;
    AsRetriever;
    PromptFromMessages;
    CreateOpenAIToolsAgent;
    NewAgentExecutor;
    StreamEvents run;
    ToDataStream ].



(** The role tests of the adapter. *)
Definition unknown_role (m : VercelChatMessage) : Prop :=
  role m ≠ Some (JS.lit "user") ∧ role m ≠ Some (JS.lit "assistant").

#[global] Instance unknown_role_dec (m : VercelChatMessage) :
  Decision (unknown_role m).
Proof. unfold unknown_role. apply _. Defined.

(** The warning the adapter logs for a message. *)
Definition role_warning (m : VercelChatMessage) : Effect :=
  ConsoleWarn (JS.lit "Unknown message role during conversion: "
                 ++ JS.interpolate (role m)).

(** ** app/page.tsx: the chat page *)

Module Page.

(** What [useChat] hands to the component and the component reads. *)
Record State : Type := mkState {
  messages : list VercelChatMessage;
  input : jsstring;
  isLoading : bool;
  error : option JS.Error
}.

(** One rendered message: the [className] of its row and of its bubble,
    the label in its [span], and the content shown. *)
Record Bubble : Type := mkBubble {
  rowClass : jsstring;
  bubbleClass : jsstring;
  label : jsstring;
  text : option jsstring
}.

(** The callback of [messages.map] in the JSX. *)
Definition renderMessage (m : VercelChatMessage) : Bubble :=
  {| rowClass :=
       JS.lit "flex "
       ++ (if decide (role m = Some (JS.lit "user"))
           then JS.lit "justify-end" else JS.lit "justify-start");
     bubbleClass :=
       JS.lit "max-w-[70%] whitespace-pre-wrap px-4 py-2 rounded-xl shadow-md "
       ++ (if decide (role m = Some (JS.lit "user"))
           then JS.lit "bg-blue-600 text-white rounded-br-none"
           else JS.lit "bg-gray-100 text-gray-800 rounded-bl-none");
     label :=
       if decide (role m = Some (JS.lit "user"))
       then JS.lit "You (Alex)" else JS.lit "AI Coach";
     text := content m |}.

(** The parts of the rendered page that depend on the state: the message
    list ([None] when the "No messages yet" hint is shown instead), the text
    of the error box when there is one, and the [disabled] attributes of the
    input field and of the submit button. *)
Record View : Type := mkView {
  bubbles : option (list Bubble);
  errorBox : option jsstring;
  inputDisabled : bool;
  submitDisabled : bool;
  spinnerShown : bool
}.

Definition Chat (st : State) : View :=
  {| bubbles :=
       if 0 <? length (messages st)
       then Some (renderMessage <$> messages st) else None;
     errorBox :=
       match error st with
       | Some e =>
           Some (JS.or_else (JS.message e)
                   (JS.lit "An unexpected error occurred. Please try again."))
       | None => None
       end;
     inputDisabled := isLoading st;
     submitDisabled :=
       isLoading st || negb (JS.truthy (Some (JS.trim (input st))));
     spinnerShown := isLoading st |}.

End Page.

(** * Properties *)

(** ** The monad *)

Lemma bind_returned {A B} (k : A → M B) (t : list Effect) (a : A) :
  ((t, Returned a) ≫= k) = (t ++ trace (k a), outcome (k a)).
Proof. unfold mbind, M_bind, trace, outcome. by destruct (k a). Qed.

Lemma bind_thrown {A B} (k : A → M B) (t : list Effect) (e : JS.Error) :
  ((t, Thrown e) ≫= k) = (t, Thrown e).
Proof. reflexivity. Qed.

Lemma M_eta {A} (m : M A) : m = (trace m, outcome m).
Proof. by destruct m. Qed.

Lemma mret_bind {A B} (a : A) (k : A → M B) : (mret a ≫= k) = k a.
Proof. unfold mret, M_ret, mbind, M_bind. by destruct (k a). Qed.

Section MapM.

Context {A B : Type} (f : A → M B).

(** The callback never throws. *)
Hypothesis f_returns : ∀ x, ∃ y, outcome (f x) = Returned y.

Lemma mapM_returns (xs : list A) :
  ∃ ys, outcome (mapM f xs) = Returned ys
        ∧ Forall2 (λ x y, outcome (f x) = Returned y) xs ys.
Proof.
  induction xs as [|x xs (ys & Hys & Hall)]; simpl.
  - exists []. by split.
  - destruct (f_returns x) as [y Hy].
    exists (y :: ys). rewrite (M_eta (f x)), Hy, bind_returned.
    rewrite (M_eta (mapM f xs)), Hys, bind_returned. simpl.
    split; [done | by constructor].
Qed.

(** The events of each call are events of the whole map. *)
Lemma mapM_trace (xs : list A) (x : A) (ev : Effect) :
  x ∈ xs → ev ∈ trace (f x) → ev ∈ trace (mapM f xs).
Proof.
  induction xs as [|x' xs IH]; [by intros ?%elem_of_nil |].
  intros Hx Hev. simpl.
  destruct (f_returns x') as [y Hy], (mapM_returns xs) as (ys & Hys & _).
  rewrite (M_eta (f x')), Hy, bind_returned.
  rewrite (M_eta (mapM f xs)), Hys, bind_returned. simpl.
  rewrite app_nil_r. apply elem_of_app.
  apply elem_of_cons in Hx as [->|Hx]; [by left | right; by apply IH].
Qed.

(** and the map performs no other event. *)
Lemma mapM_trace_inv (xs : list A) (ev : Effect) :
  ev ∈ trace (mapM f xs) → ∃ x, x ∈ xs ∧ ev ∈ trace (f x).
Proof.
  induction xs as [|x' xs IH]; simpl; [by intros ?%elem_of_nil |].
  destruct (f_returns x') as [y Hy], (mapM_returns xs) as (ys & Hys & _).
  rewrite (M_eta (f x')), Hy, bind_returned.
  rewrite (M_eta (mapM f xs)), Hys, bind_returned. simpl.
  rewrite app_nil_r. intros [Hev|Hev]%elem_of_app.
  - exists x'. split; [by left | done].
  - destruct (IH Hev) as (x & Hx & Hin). exists x. split; [by right | done].
Qed.

End MapM.

(** ** The message adapter *)

Lemma convertMessage_returns (message : VercelChatMessage) :
  ∃ y, outcome (convertMessage message) = Returned y.
Proof. unfold convertMessage. repeat case_decide; by eexists. Qed.

Lemma convertMessage_user (message : VercelChatMessage) :
  role message = Some (JS.lit "user") →
  convertMessage message = ([], Returned (HumanMessage (content message))).
Proof. intros H. unfold convertMessage. by rewrite decide_True. Qed.

Lemma convertMessage_assistant (message : VercelChatMessage) :
  role message = Some (JS.lit "assistant") →
  convertMessage message = ([], Returned (AIMessage (content message))).
Proof.
  intros H. unfold convertMessage.
  rewrite decide_False, decide_True; [done .. |]. by rewrite H.
Qed.

Lemma convertMessage_other (message : VercelChatMessage) :
  role message ≠ Some (JS.lit "user") →
  role message ≠ Some (JS.lit "assistant") →
  convertMessage message =
    ([ConsoleWarn (JS.lit "Unknown message role during conversion: "
                     ++ JS.interpolate (role message))],
     Returned (HumanMessage (Some (JS.lit "Unknown role: "
                                     ++ JS.interpolate (content message))))).
Proof. intros Hu Ha. unfold convertMessage. by rewrite !decide_False. Qed.

Lemma convert_returns (messages : list VercelChatMessage) :
  ∃ out, outcome (convertVercelMessagesToLangChainMessages messages) = Returned out
         ∧ Forall2 (λ m y, outcome (convertMessage m) = Returned y) messages out.
Proof. apply mapM_returns, convertMessage_returns. Qed.

(** C4. Whatever the roles in the input list, the adapter returns (it does
    not throw) a list of exactly the length of the input list. *)
Theorem adapter_preserves_length (messages : list VercelChatMessage) :
  ∃ out, outcome (convertVercelMessagesToLangChainMessages messages) = Returned out
         ∧ length out = length messages.
Proof.
  destruct (convert_returns messages) as (out & Hout & Hall).
  exists out. split; [done |]. symmetry. by eapply Forall2_length.
Qed.

(** C5. The adapter returns a list in which, at every index [i], a message
    of role "user" has become a human message with the same content and a
    message of role "assistant" an ai message with the same content: the
    mapping is positional, so the order is the order of the input. *)
Theorem adapter_user_assistant (messages : list VercelChatMessage) :
  ∃ out, outcome (convertVercelMessagesToLangChainMessages messages) = Returned out
    ∧ ∀ (i : nat) (m : VercelChatMessage), messages !! i = Some m →
        (role m = Some (JS.lit "user") →
           out !! i = Some (HumanMessage (content m)))
        ∧ (role m = Some (JS.lit "assistant") →
           out !! i = Some (AIMessage (content m))).
Proof.
  destruct (convert_returns messages) as (out & Hout & Hall).
  exists out. split; [done |]. intros i m Hi.
  destruct (Forall2_lookup_l _ _ _ _ _ Hall Hi) as (y & Hy & Hm).
  split; intros Hr.
  - rewrite convertMessage_user in Hm by done. injection Hm as <-. exact Hy.
  - rewrite convertMessage_assistant in Hm by done. injection Hm as <-. exact Hy.
Qed.

Lemma adapter_user_assistant_witness :
  ∃ out,
    outcome (convertVercelMessagesToLangChainMessages
               [Sample.question; Sample.hi; Sample.question]) = Returned out
    ∧ out !! 0 = Some (HumanMessage (Some (JS.lit "What is our refund policy?")))
    ∧ out !! 1 = Some (AIMessage (Some (JS.lit "Hi"))).
Proof.
  destruct (adapter_user_assistant [Sample.question; Sample.hi; Sample.question])
    as (out & Hout & H).
  exists out. split; [exact Hout |]. split.
  - apply (H 0 Sample.question); reflexivity.
  - apply (H 1 Sample.hi); reflexivity.
Defined.

(** C6. A message whose role is neither "user" nor "assistant" makes the
    adapter log a warning that names the role and stand in, at the same
    index, a human message whose content is "Unknown role: " followed by the
    original content; the adapter still returns, with one output per input. *)
Theorem adapter_unknown_role
    (messages : list VercelChatMessage) (i : nat) (m : VercelChatMessage) :
  messages !! i = Some m →
  role m ≠ Some (JS.lit "user") →
  role m ≠ Some (JS.lit "assistant") →
  ∃ out, outcome (convertVercelMessagesToLangChainMessages messages) = Returned out
    ∧ length out = length messages
    ∧ out !! i = Some (HumanMessage
                         (Some (JS.lit "Unknown role: " ++ JS.interpolate (content m))))
    ∧ ConsoleWarn (JS.lit "Unknown message role during conversion: "
                     ++ JS.interpolate (role m))
        ∈ trace (convertVercelMessagesToLangChainMessages messages).
Proof.
  intros Hi Hu Ha.
  destruct (convert_returns messages) as (out & Hout & Hall).
  exists out. split; [done |]. split; [symmetry; by eapply Forall2_length |].
  destruct (Forall2_lookup_l _ _ _ _ _ Hall Hi) as (y & Hy & Hm).
  rewrite convertMessage_other in Hm by done.
  split; [injection Hm as <-; exact Hy |].
  eapply (mapM_trace _ convertMessage_returns); [by eapply list_elem_of_lookup_2 |].
  rewrite convertMessage_other by done. simpl. by apply list_elem_of_singleton.
Qed.

Lemma adapter_unknown_role_witness :
  ∃ out,
    outcome (convertVercelMessagesToLangChainMessages
               [Sample.question; Sample.tool_turn]) = Returned out
    ∧ length out = 2
    ∧ out !! 1 = Some (HumanMessage (Some (JS.lit "Unknown role: 42")))
    ∧ ConsoleWarn (JS.lit "Unknown message role during conversion: tool")
        ∈ trace (convertVercelMessagesToLangChainMessages
                   [Sample.question; Sample.tool_turn]).
Proof.
  apply (adapter_unknown_role [Sample.question; Sample.tool_turn] 1 Sample.tool_turn).
  - reflexivity.
  - vm_compute. discriminate.
  - vm_compute. discriminate.
Defined.

(** ** Strings: trimming and counting occurrences *)

Lemma trimStart_blank (s : jsstring) :
  Forall (λ c, JS.is_whitespace c = true) s → JS.trimStart s = [].
Proof. induction 1 as [|c s Hc _ IH]; simpl; [done | by rewrite Hc]. Qed.

Lemma trim_blank (s : jsstring) :
  Forall (λ c, JS.is_whitespace c = true) s → JS.trim s = [].
Proof.
  intros H. unfold JS.trim, JS.trimEnd. by rewrite (trimStart_blank s H).
Qed.

Lemma trimStart_visible (s : jsstring) :
  Exists (λ c, JS.is_whitespace c = false) s →
  Exists (λ c, JS.is_whitespace c = false) (JS.trimStart s).
Proof.
  induction s as [|c s IH]; intros H; [by apply Exists_nil in H |].
  simpl. destruct (JS.is_whitespace c) eqn:Hc; [| by left].
  apply IH. apply Exists_cons in H as [H|H]; [congruence | done].
Qed.

Lemma trim_visible (s : jsstring) :
  Exists (λ c, JS.is_whitespace c = false) s → JS.trim s ≠ [].
Proof.
  intros H%trimStart_visible. unfold JS.trim, JS.trimEnd.
  set (u := JS.trimStart s) in *.
  assert (Exists (λ c, JS.is_whitespace c = false) (reverse u)) as H'.
  { apply Exists_exists in H as (c & Hin & Hc). apply Exists_exists.
    exists c. split; [by apply elem_of_reverse | done]. }
  apply trimStart_visible in H'. intros Hnil.
  apply (f_equal reverse) in Hnil. rewrite reverse_involutive in Hnil.
  rewrite Hnil in H'. by apply Exists_nil in H'.
Qed.

(** A string is blank for [trim] exactly when all its code units are
    white space. *)
Lemma trim_nil_iff (s : jsstring) :
  JS.trim s = [] ↔ Forall (λ c, JS.is_whitespace c = true) s.
Proof.
  split; [| apply trim_blank].
  intros Hnil. apply Forall_forall. intros c Hin.
  destruct (JS.is_whitespace c) eqn:Hc; [done |].
  destruct (trim_visible s); [| done].
  apply Exists_exists. by exists c.
Qed.

Section Occurrences.

Context (p : jsstring) (w : N).

(** [w] is a code unit that the pattern does not use. *)
Hypothesis w_fresh : w ∉ p.

Lemma startsWith_before_fresh (x b : jsstring) :
  JS.startsWith p (x ++ w :: b) = JS.startsWith p x.
Proof using w_fresh.
  revert x. induction p as [|a p' IH]; intros x; [by destruct x |].
  apply not_elem_of_cons in w_fresh as [Hne Hp'].
  destruct x as [|c x]; simpl.
  - by rewrite (proj2 (N.eqb_neq a w)).
  - by rewrite IH.
Qed.

(** No occurrence crosses a code unit foreign to the pattern. *)
Lemma occurrences_app_fresh (a b : jsstring) :
  JS.occurrences p (a ++ w :: b)
  = JS.occurrences p a + JS.occurrences p (w :: b).
Proof using w_fresh.
  set (r := JS.occurrences p (w :: b)).
  induction a as [|c a IH]; [done |].
  change (JS.occurrences p ((c :: a) ++ w :: b))
    with ((if JS.startsWith p ((c :: a) ++ w :: b) then 1 else 0)
          + JS.occurrences p (a ++ w :: b)).
  rewrite IH, startsWith_before_fresh. simpl. lia.
Qed.

Lemma occurrences_fresh_cons (b : jsstring) :
  JS.occurrences p (w :: b) = JS.occurrences p [w] + JS.occurrences p b.
Proof using w_fresh.
  pose proof (startsWith_before_fresh [] b) as Hb.
  pose proof (startsWith_before_fresh [] []) as Hw.
  simpl in Hb, Hw. cbn [JS.occurrences]. rewrite Hb, Hw. lia.
Qed.

Lemma occurrences_snoc_fresh (a b : jsstring) :
  JS.occurrences p ((a ++ [w]) ++ b)
  = JS.occurrences p (a ++ [w]) + JS.occurrences p b.
Proof using w_fresh.
  rewrite <- app_assoc. simpl.
  rewrite !occurrences_app_fresh, (occurrences_fresh_cons b). lia.
Qed.

End Occurrences.

(** ** The retrieval tool *)

Lemma search_blank (retriever : BaseRetrieverInterface) (input : ToolInput) :
  JS.trim (queryOf input) = [] →
  search_knowledge_base retriever input = ([], Returned NO_QUERY_ERROR).
Proof.
  intros H. unfold search_knowledge_base, createSearchTool, func.
  cbn [readQuery]. rewrite mret_bind.
  by rewrite (bool_decide_eq_true_2 _ H), orb_true_r.
Qed.

Lemma search_guard_passed (query : jsstring) :
  JS.trim query ≠ [] →
  negb (JS.truthy (Some query)) || bool_decide (JS.trim query = []) = false.
Proof.
  intros H. rewrite (bool_decide_eq_false_2 _ H), orb_false_r.
  by destruct query.
Qed.

Lemma search_answered (retriever : BaseRetrieverInterface) (input : ToolInput)
    (docs : list Document) :
  JS.trim (queryOf input) ≠ [] →
  retriever (queryOf input) = Returned docs →
  search_knowledge_base retriever input =
    (search_events (queryOf input) (length docs),
     Returned (if length docs =? 0 then NOT_FOUND
               else FOUND_HEADER ++ JS.join DELIMITER (formatDocument <$> docs))).
Proof.
  intros Hq Hdocs. unfold search_knowledge_base, createSearchTool, func.
  cbn [readQuery]. rewrite mret_bind.
  rewrite (search_guard_passed _ Hq).
  unfold getRelevantDocuments. rewrite Hdocs.
  cbv [mbind M_bind emit mret M_ret try_catch].
  by destruct (length docs =? 0).
Qed.

Lemma search_failed (retriever : BaseRetrieverInterface) (input : ToolInput)
    (e : JS.Error) :
  JS.trim (queryOf input) ≠ [] →
  retriever (queryOf input) = Thrown e →
  search_knowledge_base retriever input =
    ([ ConsoleLog (JS.lit "Tool 'search_knowledge_base' called with query: "
                     ++ quoted (queryOf input));
       GetRelevantDocuments (queryOf input);
       ConsoleError (JS.lit "Error in 'search_knowledge_base' tool for query "
                       ++ quoted (queryOf input) ++ JS.lit ":") e ],
     Returned (SEARCH_ERROR_PREFIX ++ JS.interpolate (JS.message e))).
Proof.
  intros Hq He. unfold search_knowledge_base, createSearchTool, func.
  cbn [readQuery]. rewrite mret_bind.
  rewrite (search_guard_passed _ Hq).
  unfold getRelevantDocuments. by rewrite He.
Qed.

(** X16. On every input of its declared type, a string or an object with
    a string [query], the tool function returns a string and does not
    throw: when the store fails during the search, the failure is caught and
    the function returns the tool-error text that ends with the failure's
    message. *)
Theorem search_tool_returns_on_declared_input
    (retriever : BaseRetrieverInterface) (input : ToolInput) :
  (∃ result, outcome (search_knowledge_base retriever input) = Returned result)
  ∧ ∀ e, JS.trim (queryOf input) ≠ [] →
         retriever (queryOf input) = Thrown e →
         outcome (search_knowledge_base retriever input)
         = Returned (SEARCH_ERROR_PREFIX ++ JS.interpolate (JS.message e)).
Proof.
  split.
  - destruct (decide (JS.trim (queryOf input) = [])) as [Hq|Hq].
    + rewrite (search_blank _ _ Hq). by eexists.
    + destruct (retriever (queryOf input)) as [docs|e] eqn:Hr.
      * rewrite (search_answered _ _ _ Hq Hr). by eexists.
      * rewrite (search_failed _ _ _ Hq Hr). by eexists.
  - intros e Hq Hr. by rewrite (search_failed _ _ _ Hq Hr).
Qed.

Lemma search_tool_returns_on_declared_input_witness :
  outcome (search_knowledge_base Sample.failing_store
             (InputString (JS.lit "refund policy")))
  = Returned (JS.lit "Tool Error: An error occurred while searching the knowledge base: fetch failed").
Proof.
  apply (proj2 (search_tool_returns_on_declared_input Sample.failing_store
                  (InputString (JS.lit "refund policy")))
           (JS.mkError (Some (JS.lit "fetch failed")))).
  - vm_compute. discriminate.
  - reflexivity.
Defined.

(** C1 does not hold of the code. The function reads [input.query] in its
    first statement, which stands before the [try]. Called with [undefined],
    as happens for a tool call that carries no input, or with [null], it
    throws a [TypeError] to its caller instead of returning a tool-error
    string, whatever the store is; it performs no event before. *)
Theorem search_tool_throws_without_input (retriever : BaseRetrieverInterface) :
  func (createSearchTool retriever) ArgUndefined
  = ([], Thrown (JS.mkError
                   (Some (JS.lit "Cannot read properties of undefined (reading 'query')"))))
  ∧ func (createSearchTool retriever) ArgNull
    = ([], Thrown (JS.mkError
                     (Some (JS.lit "Cannot read properties of null (reading 'query')")))).
Proof.
  unfold createSearchTool, func. cbn [readQuery].
  split; apply bind_thrown.
Qed.

(** C3. A query that is empty or made of white space only gets the fixed
    tool-error string as a returned value, and the function performs no
    event at all: the retriever is not called. *)
Theorem search_tool_blank_query
    (retriever : BaseRetrieverInterface) (input : ToolInput) :
  Forall (λ c, JS.is_whitespace c = true) (queryOf input) →
  outcome (search_knowledge_base retriever input) = Returned NO_QUERY_ERROR
  ∧ trace (search_knowledge_base retriever input) = []
  ∧ ∀ q, GetRelevantDocuments q ∉ trace (search_knowledge_base retriever input).
Proof.
  intros H%trim_blank. rewrite (search_blank _ _ H).
  split; [done |]. split; [done |]. intros q. apply not_elem_of_nil.
Qed.

Lemma search_tool_blank_query_witness :
  outcome (search_knowledge_base Sample.two_docs_store
             (InputObject ([32; 9; 160] ++ [JS.LF])%N))
  = Returned NO_QUERY_ERROR
  ∧ outcome (search_knowledge_base Sample.two_docs_store (InputString []))
    = Returned NO_QUERY_ERROR.
Proof.
  split.
  - apply (search_tool_blank_query Sample.two_docs_store
             (InputObject ([32; 9; 160] ++ [JS.LF])%N)).
    repeat constructor.
  - apply (search_tool_blank_query Sample.two_docs_store (InputString [])).
    constructor.
Defined.

Lemma LF_not_in_mark : JS.LF ∉ SOURCE_MARK.
Proof. apply (bool_decide_unpack _). by vm_compute. Qed.

Lemma SP_not_in_mark : 32%N ∉ SOURCE_MARK.
Proof. apply (bool_decide_unpack _). by vm_compute. Qed.

(** The marker inside one rendered document: the one the tool prints, and
    those of the document's own texts. What follows the entry is the
    delimiter, which begins with a line feed. *)
Lemma occurrences_formatDocument (doc : Document) (rest : jsstring) :
  JS.occurrences SOURCE_MARK (formatDocument doc ++ JS.LF :: rest)
  = 1 + JS.occurrences SOURCE_MARK (sourceOf doc)
      + JS.occurrences SOURCE_MARK (pageContent doc)
      + JS.occurrences SOURCE_MARK (JS.LF :: rest).
Proof.
  unfold formatDocument.
  change (JS.lit "Source: ") with ((SOURCE_MARK ++ [32%N]) : jsstring).
  change (JS.lit "Content: ") with ((JS.lit "Content:" ++ [32%N]) : jsstring).
  rewrite <- !app_assoc.
  rewrite (app_assoc SOURCE_MARK [32%N]).
  rewrite (occurrences_snoc_fresh _ _ SP_not_in_mark).
  change ([JS.LF] ++ ?x) with (JS.LF :: x).
  rewrite (occurrences_app_fresh _ _ LF_not_in_mark).
  change (JS.LF :: JS.lit "Content:" ++ [32%N] ++ pageContent doc ++ JS.LF :: rest)
    with (((JS.LF :: JS.lit "Content:") ++ [32%N]) ++ pageContent doc ++ JS.LF :: rest).
  rewrite (occurrences_snoc_fresh _ _ SP_not_in_mark).
  rewrite (occurrences_app_fresh _ _ LF_not_in_mark).
  change (JS.occurrences SOURCE_MARK (SOURCE_MARK ++ [32%N])) with 1.
  change (JS.occurrences SOURCE_MARK ((JS.LF :: JS.lit "Content:") ++ [32%N])) with 0.
  lia.
Qed.

Lemma occurrences_formatDocument_last (doc : Document) :
  JS.occurrences SOURCE_MARK (formatDocument doc)
  = 1 + JS.occurrences SOURCE_MARK (sourceOf doc)
      + JS.occurrences SOURCE_MARK (pageContent doc).
Proof.
  pose proof (occurrences_formatDocument doc []) as H.
  rewrite (occurrences_app_fresh _ _ LF_not_in_mark) in H.
  lia.
Qed.

Lemma occurrences_delimiter (rest : jsstring) :
  JS.occurrences SOURCE_MARK (DELIMITER ++ rest) = JS.occurrences SOURCE_MARK rest.
Proof.
  change DELIMITER with (((([JS.LF; JS.LF] : jsstring) ++ JS.lit "---") ++ [JS.LF])).
  rewrite (occurrences_snoc_fresh _ _ LF_not_in_mark). reflexivity.
Qed.

Lemma marks_within_cons (doc : Document) (docs : list Document) :
  marks_within (doc :: docs)
  = JS.occurrences SOURCE_MARK (sourceOf doc)
    + JS.occurrences SOURCE_MARK (pageContent doc) + marks_within docs.
Proof. reflexivity. Qed.

Lemma occurrences_join (docs : list Document) :
  JS.occurrences SOURCE_MARK (JS.join DELIMITER (formatDocument <$> docs))
  = length docs + marks_within docs.
Proof.
  induction docs as [|doc [|doc' docs] IH]; [done | |].
  - rewrite marks_within_cons.
    change (JS.join DELIMITER (formatDocument <$> [doc])) with (formatDocument doc).
    rewrite occurrences_formatDocument_last.
    change (marks_within []) with 0. simpl. lia.
  - rewrite marks_within_cons.
    change (JS.join DELIMITER (formatDocument <$> doc :: doc' :: docs))
      with (formatDocument doc
              ++ DELIMITER ++ JS.join DELIMITER (formatDocument <$> doc' :: docs)).
    change (DELIMITER ++ ?x) with (JS.LF :: ((JS.LF :: JS.lit "---" ++ [JS.LF]) ++ x)).
    rewrite occurrences_formatDocument.
    change (JS.LF :: ((JS.LF :: JS.lit "---" ++ [JS.LF]) ++ ?x)) with (DELIMITER ++ x).
    rewrite occurrences_delimiter, IH.
    change (length (doc :: doc' :: docs)) with (S (length (doc' :: docs))). lia.
Qed.

Lemma occurrences_found (docs : list Document) :
  JS.occurrences SOURCE_MARK
    (FOUND_HEADER ++ JS.join DELIMITER (formatDocument <$> docs))
  = length docs + marks_within docs.
Proof.
  unfold FOUND_HEADER.
  rewrite (occurrences_snoc_fresh _ _ LF_not_in_mark), occurrences_join.
  reflexivity.
Qed.

Lemma marks_within_none (docs : list Document) :
  Forall (λ doc, JS.includes SOURCE_MARK (sourceOf doc) = false
                 ∧ JS.includes SOURCE_MARK (pageContent doc) = false) docs →
  marks_within docs = 0.
Proof.
  unfold JS.includes.
  induction 1 as [|doc docs [Hs Hc] _ IH]; [done |].
  rewrite marks_within_cons, IH.
  apply negb_false_iff, Nat.eqb_eq in Hs. apply negb_false_iff, Nat.eqb_eq in Hc.
  by rewrite Hs, Hc.
Qed.

(** C2, as the code has it. For every query with a code unit that is not
    white space: when the store returns no document the tool returns exactly
    the "no relevant information" sentence; when it returns N > 0 documents
    the tool returns the header line, then the documents in the store's order,
    each as "Source: <source-or-unknown>", line feed, "Content: <text>",
    with the delimiter between them. "Source:" occurs in that text N times
    plus once for each occurrence inside the documents' own source and
    content texts, so exactly N times when those texts do not contain it. *)
Theorem search_tool_answer
    (retriever : BaseRetrieverInterface) (input : ToolInput) (docs : list Document) :
  Exists (λ c, JS.is_whitespace c = false) (queryOf input) →
  retriever (queryOf input) = Returned docs →
  (docs = [] →
     outcome (search_knowledge_base retriever input) = Returned NOT_FOUND)
  ∧ (docs ≠ [] →
     ∃ result,
       outcome (search_knowledge_base retriever input) = Returned result
       ∧ result = FOUND_HEADER ++ JS.join DELIMITER (formatDocument <$> docs)
       ∧ JS.occurrences SOURCE_MARK result = length docs + marks_within docs
       ∧ (Forall (λ doc, JS.includes SOURCE_MARK (sourceOf doc) = false
                         ∧ JS.includes SOURCE_MARK (pageContent doc) = false) docs →
          JS.occurrences SOURCE_MARK result = length docs)).
Proof.
  intros Hq%trim_visible Hr. rewrite (search_answered _ _ _ Hq Hr).
  split.
  - intros ->. reflexivity.
  - intros Hne.
    exists (FOUND_HEADER ++ JS.join DELIMITER (formatDocument <$> docs)).
    split; [by destruct docs |]. split; [reflexivity |].
    rewrite occurrences_found. split; [reflexivity |].
    intros Hnone. rewrite (marks_within_none _ Hnone). lia.
Qed.

Lemma search_tool_answer_witness :
  outcome (search_knowledge_base Sample.empty_store (InputString (JS.lit "refund policy")))
  = Returned (JS.lit "No relevant information found in the knowledge base for that query.")
  ∧ ∃ result,
      outcome (search_knowledge_base Sample.two_docs_store
                 (InputString (JS.lit "refund policy"))) = Returned result
      ∧ result = JS.lit "Found the following information in the knowledge base:"
                 ++ [JS.LF] ++ JS.lit "Source: a.pdf"
                 ++ [JS.LF] ++ JS.lit "Content: alpha"
                 ++ [JS.LF; JS.LF] ++ JS.lit "---"
                 ++ [JS.LF] ++ JS.lit "Source: b.pdf"
                 ++ [JS.LF] ++ JS.lit "Content: beta"
      ∧ JS.occurrences SOURCE_MARK result = 2.
Proof.
  assert (Exists (λ c, JS.is_whitespace c = false) (JS.lit "refund policy")) as Hq
    by (left; reflexivity).
  split.
  - apply (search_tool_answer Sample.empty_store
             (InputString (JS.lit "refund policy")) [] Hq eq_refl).
    reflexivity.
  - destruct (search_tool_answer Sample.two_docs_store
                (InputString (JS.lit "refund policy"))
                [Sample.doc "a.pdf" "alpha"; Sample.doc "b.pdf" "beta"] Hq eq_refl)
      as [_ H].
    destruct H as (result & Hres & Heq & _ & Hcount); [discriminate |].
    exists result. split; [exact Hres |]. split; [exact Heq |].
    apply Hcount. repeat constructor.
Defined.

(** C2 as stated fails: the store returns one document whose text quotes a
    citation, and the tool's answer contains "Source:" twice. *)
Lemma search_tool_marker_count_counterexample :
  Sample.citing_store (JS.lit "refund policy")
  = Returned [Sample.doc "a.pdf" "See Source: b.pdf for details"]
  ∧ outcome (search_knowledge_base Sample.citing_store
               (InputString (JS.lit "refund policy")))
    = Returned (JS.lit "Found the following information in the knowledge base:"
                ++ [JS.LF] ++ JS.lit "Source: a.pdf"
                ++ [JS.LF] ++ JS.lit "Content: See Source: b.pdf for details")
  ∧ JS.occurrences (JS.lit "Source:")
      (JS.lit "Found the following information in the knowledge base:"
       ++ [JS.LF] ++ JS.lit "Source: a.pdf"
       ++ [JS.LF] ++ JS.lit "Content: See Source: b.pdf for details") = 2.
Proof. repeat split. Qed.

(** ** The POST handler *)

Lemma convert_trace_warns (messages : list VercelChatMessage) (ev : Effect) :
  ev ∈ trace (convertVercelMessagesToLangChainMessages messages) →
  ∃ text, ev = ConsoleWarn text.
Proof.
  intros (m & _ & Hev)%(mapM_trace_inv _ convertMessage_returns).
  unfold convertMessage in Hev. repeat case_decide; simpl in Hev.
  - by apply elem_of_nil in Hev.
  - by apply elem_of_nil in Hev.
  - apply list_elem_of_singleton in Hev. by eexists.
Qed.

Lemma snoc_nonempty {A} (init : list A) (x : A) :
  (length (init ++ [x]) =? 0) = false.
Proof. rewrite length_app. simpl. apply Nat.eqb_neq. lia. Qed.

Lemma snoc_last {A} (init : list A) (x : A) :
  (init ++ [x]) !! (length (init ++ [x]) - 1) = Some x.
Proof.
  rewrite length_app. simpl.
  replace (length init + 1 - 1) with (length init) by lia.
  by rewrite list_lookup_middle.
Qed.

Lemma slice_snoc {A} (init : list A) (x : A) : slice_0_minus1 (init ++ [x]) = init.
Proof.
  unfold slice_0_minus1. rewrite length_app. simpl.
  replace (length init + 1 - 1) with (length init) by lia.
  by rewrite take_app_length.
Qed.

Lemma config_guard (env : gmap string jsstring) :
  negb (JS.truthy (env !! "SUPABASE_URL"))
  || negb (JS.truthy (env !! "SUPABASE_ANON_KEY"))
  || negb (JS.truthy (env !! "OPENAI_API_KEY"))
  = negb (configured env).
Proof. unfold configured. by rewrite !negb_andb. Qed.

Lemma request_with_snoc (history : list VercelChatMessage) (last : VercelChatMessage) :
  request_with (Some (history ++ [last]))
  = mkRequest (Returned (JsonValue (Some ((Some <$> history) ++ [Some last])))).
Proof. unfold request_with. cbn. by rewrite fmap_app. Qed.

(** On an array of message objects the adapter is the function of its
    declared type. *)
Lemma convertJsonMessages_typed (messages : list VercelChatMessage) :
  convertJsonMessages (Some <$> messages)
  = convertVercelMessagesToLangChainMessages messages.
Proof.
  unfold convertJsonMessages, convertVercelMessagesToLangChainMessages.
  induction messages as [|m messages IH]; [done |].
  rewrite fmap_cons. cbn [mapM convertElement]. by rewrite IH.
Qed.

(** Unfold the handler on a request whose body is JSON, down to the checks. *)
Ltac enter_POST :=
  rewrite ?request_with_snoc;
  unfold POST, request_with; cbn [json];
  cbv [mbind M_bind body_messages mret M_ret default from_option id];
  rewrite ?snoc_nonempty, ?snoc_last, ?slice_snoc, ?config_guard,
    ?convertJsonMessages_typed;
  cbv [mjoin option_join option_bind].

(** Follow the handler past the checks: one goal for each library call that
    may throw, and one for the run in which none does. *)
Ltac follow_calls world :=
  unfold call;
  repeat match goal with
         | |- context [world ?c] =>
             destruct (world c) eqn:?; cbn [try_catch app emit]
         end;
  cbn [try_catch app emit trace outcome fst snd].


Lemma POST_no_messages (world : World) (env : gmap string jsstring)
    (messages : option (list VercelChatMessage)) :
  default [] messages = [] →
  POST world env (request_with messages) =
    ([], Returned (mkResponse 400 (ErrorJson (JS.lit "No messages provided")))).
Proof. destruct messages as [[|m ms]|]; by intros H. Qed.

Lemma POST_no_content (world : World) (env : gmap string jsstring)
    (history : list VercelChatMessage) (last : VercelChatMessage) :
  JS.truthy (content last) = false →
  POST world env (request_with (Some (history ++ [last]))) =
    ([], Returned (mkResponse 400
                     (ErrorJson (JS.lit "No current message content found")))).
Proof. intros H. enter_POST. by rewrite H. Qed.

Lemma POST_no_config (world : World) (env : gmap string jsstring)
    (history : list VercelChatMessage) (last : VercelChatMessage) :
  JS.truthy (content last) = true →
  configured env = false →
  POST world env (request_with (Some (history ++ [last]))) =
    ([], Returned (mkResponse 500
                     (ErrorJson (JS.lit "Missing environment variables")))).
Proof. intros H Henv. enter_POST. by rewrite H, Henv. Qed.

(** A list is empty or has a last element. *)
Lemma messages_cases (messages : option (list VercelChatMessage)) :
  default [] messages = []
  ∨ ∃ history last, messages = Some (history ++ [last]).
Proof.
  destruct messages as [ms|]; [| by left].
  destruct ms as [|m ms _] using rev_ind; [by left | right; eauto].
Qed.

(** C7. On a request whose message list is [history ++ [last]] and passes
    the checks (the last message has non-empty content, the configuration is
    there), the only agent run the handler can start has the content of
    the last message as its input and the adapter's conversion of [history]
    as its chat history; when no library call fails that run is started and
    its stream is the response. A [history] made of the one assistant turn
    "Hi" is passed as exactly one ai message with content "Hi". *)
Theorem POST_input_and_history
    (world : World) (env : gmap string jsstring)
    (history : list VercelChatMessage) (last : VercelChatMessage) (text : jsstring) :
  content last = Some text →
  text ≠ [] →
  configured env = true →
  ∃ chatHistory,
    outcome (convertVercelMessagesToLangChainMessages history) = Returned chatHistory
    ∧ (∀ run,
         Upstream (StreamEvents run)
           ∈ trace (POST world env (request_with (Some (history ++ [last])))) →
         run = {| input := text; chat_history := chatHistory |})
    ∧ ((∀ c, world c = None) →
         Upstream (StreamEvents {| input := text; chat_history := chatHistory |})
           ∈ trace (POST world env (request_with (Some (history ++ [last]))))
         ∧ outcome (POST world env (request_with (Some (history ++ [last]))))
           = Returned (mkResponse 200
                         (DataStream {| input := text; chat_history := chatHistory |})))
    ∧ (history = [mkMessage (Some (JS.lit "assistant")) (Some (JS.lit "Hi"))] →
         chatHistory = [AIMessage (Some (JS.lit "Hi"))]).
Proof.
  intros Hc Ht Henv.
  destruct (convert_returns history) as (chatHistory & Hh & _).
  exists chatHistory. split; [done |].
  assert (∀ ev, ev ∈ trace (convertVercelMessagesToLangChainMessages history) →
                ∀ run, ev ≠ Upstream (StreamEvents run)) as Hwarn.
  { intros ev [w ->]%convert_trace_warns run. discriminate. }
  destruct text as [|u text]; [done |].
  split; [| split].
  - intros run. enter_POST. rewrite Hc, Henv.
    cbn [JS.truthy negb the default from_option id].
    rewrite (M_eta (convertVercelMessagesToLangChainMessages history)), Hh.
    follow_calls world; intros Hin;
      repeat (apply elem_of_cons in Hin as [Hin|Hin]
              || apply elem_of_app in Hin as [Hin|Hin]);
      try discriminate Hin;
      try (by apply elem_of_nil in Hin);
      try (by injection Hin);
      by destruct (Hwarn _ Hin run).
  - intros Hquiet. enter_POST. rewrite Hc, Henv.
    cbn [JS.truthy negb the default from_option id].
    rewrite (M_eta (convertVercelMessagesToLangChainMessages history)), Hh.
    unfold call. rewrite !Hquiet. cbn [try_catch app emit trace outcome fst snd].
    split; [| reflexivity].
    do 8 right. apply elem_of_app. right. by left.
  - intros ->. by injection Hh.
Qed.

Lemma POST_input_and_history_witness :
  outcome (POST Sample.quiet Sample.env
             (request_with (Some [Sample.hi; Sample.question])))
  = Returned (mkResponse 200
                (DataStream {| input := JS.lit "What is our refund policy?";
                               chat_history := [AIMessage (Some (JS.lit "Hi"))] |})).
Proof.
  destruct (POST_input_and_history Sample.quiet Sample.env [Sample.hi]
              Sample.question (JS.lit "What is our refund policy?") eq_refl)
    as (chatHistory & _ & _ & Hrun & Hhi).
  - vm_compute. discriminate.
  - vm_compute. reflexivity.
  - rewrite (Hhi eq_refl) in Hrun. exact (proj2 (Hrun (λ _, eq_refl))).
Defined.

(** C8. The handler answers 400 with an [error] field when the message list
    is empty (or missing), 400 with an [error] field when the last message's
    content is empty or missing, and, these two checks passed, 500 with an
    [error] field when one of the three configuration values is absent or
    empty. In all three cases it returns without having performed any
    event, so before any call to the store or the model. *)
Theorem POST_validation (world : World) (env : gmap string jsstring) :
  (∀ messages, default [] messages = [] →
     ∃ err, outcome (POST world env (request_with messages))
            = Returned (mkResponse 400 (ErrorJson err))
            ∧ trace (POST world env (request_with messages)) = [])
  ∧ (∀ history last, JS.truthy (content last) = false →
     ∃ err, outcome (POST world env (request_with (Some (history ++ [last]))))
            = Returned (mkResponse 400 (ErrorJson err))
            ∧ trace (POST world env (request_with (Some (history ++ [last])))) = [])
  ∧ (∀ history last, JS.truthy (content last) = true →
     configured env = false →
     ∃ err, outcome (POST world env (request_with (Some (history ++ [last]))))
            = Returned (mkResponse 500 (ErrorJson err))
            ∧ trace (POST world env (request_with (Some (history ++ [last])))) = []
            ∧ Forall (λ ev, is_upstream ev = false)
                (trace (POST world env (request_with (Some (history ++ [last])))))).
Proof.
  split; [| split].
  - intros messages H. rewrite (POST_no_messages _ _ _ H). by eexists.
  - intros history last H. rewrite (POST_no_content _ _ _ _ H). by eexists.
  - intros history last H Henv. rewrite (POST_no_config _ _ _ _ H Henv).
    eexists. split; [done |]. split; [done | constructor].
Qed.

Lemma POST_validation_witness :
  (∃ err, outcome (POST Sample.quiet Sample.env (request_with (Some [])))
          = Returned (mkResponse 400 (ErrorJson err)))
  ∧ (∃ err, outcome (POST Sample.quiet Sample.env
                       (request_with (Some [Sample.hi; Sample.no_content])))
            = Returned (mkResponse 400 (ErrorJson err)))
  ∧ (∃ err, outcome (POST Sample.quiet Sample.env_no_model
                       (request_with (Some [Sample.hi; Sample.question])))
            = Returned (mkResponse 500 (ErrorJson err))
            ∧ trace (POST Sample.quiet Sample.env_no_model
                       (request_with (Some [Sample.hi; Sample.question]))) = []).
Proof.
  split; [| split].
  - destruct (proj1 (POST_validation Sample.quiet Sample.env) (Some []) eq_refl)
      as (err & H & _). by exists err.
  - destruct (proj1 (proj2 (POST_validation Sample.quiet Sample.env))
                [Sample.hi] Sample.no_content eq_refl) as (err & H & _).
    by exists err.
  - destruct (proj2 (proj2 (POST_validation Sample.quiet Sample.env_no_model))
                [Sample.hi] Sample.question eq_refl) as (err & H & Ht & _).
    + vm_compute. reflexivity.
    + by exists err.
Defined.

Lemma or_else_nonempty (v : option jsstring) (d : jsstring) :
  d ≠ [] → JS.or_else v d ≠ [].
Proof. by destruct v as [[|c s]|]. Qed.

(** Past the checks, the handler answers 500 because a library call threw,
    or 200 with the stream of the run. *)
Lemma POST_run_cases (world : World) (env : gmap string jsstring)
    (history : list VercelChatMessage) (last : VercelChatMessage) :
  JS.truthy (content last) = true →
  configured env = true →
  (∃ c e err, world c = Some e ∧ err ≠ []
     ∧ outcome (POST world env (request_with (Some (history ++ [last]))))
       = Returned (mkResponse 500 (ErrorJson err)))
  ∨ (∃ run, outcome (POST world env (request_with (Some (history ++ [last]))))
            = Returned (mkResponse 200 (DataStream run))).
Proof.
  intros Hc Henv.
  destruct (convert_returns history) as (chatHistory & Hh & _).
  enter_POST. rewrite Hc, Henv. cbn [negb].
  rewrite (M_eta (convertVercelMessagesToLangChainMessages history)), Hh.
  follow_calls world;
    try (left; do 3 eexists; split; [eassumption |];
         split; [| reflexivity]; by apply or_else_nonempty).
  right. by eexists.
Qed.

Lemma Returned_inj {A} (a b : A) : Returned a = Returned b → a = b.
Proof. by intros [= ->]. Qed.

Lemma truthy_the (v : option jsstring) :
  JS.truthy v = true → v = Some (the v) ∧ the v ≠ [].
Proof. by destruct v as [[|c s]|]. Qed.

Lemma convertMessage_trace (m : VercelChatMessage) :
  trace (convertMessage m) = if decide (unknown_role m) then [role_warning m] else [].
Proof.
  unfold convertMessage, unknown_role.
  destruct (decide (role m = Some (JS.lit "user"))) as [Hu|Hu].
  { rewrite decide_False; [done | by intros [? _]]. }
  destruct (decide (role m = Some (JS.lit "assistant"))) as [Ha|Ha].
  { rewrite decide_False; [done | by intros [_ ?]]. }
  by rewrite decide_True.
Qed.

(** *** Arrays with [null] elements *)

Lemma mapM_trace_origin {A B} (f : A → M B) (xs : list A) (ev : Effect) :
  ev ∈ trace (mapM f xs) → ∃ x, x ∈ xs ∧ ev ∈ trace (f x).
Proof.
  induction xs as [|x xs IH]; simpl; [by intros ?%elem_of_nil |].
  rewrite (M_eta (f x)). destruct (outcome (f x)) as [y|e].
  - rewrite bind_returned, (M_eta (mapM f xs)).
    destruct (outcome (mapM f xs)) as [ys|e].
    + rewrite bind_returned. simpl. rewrite app_nil_r.
      intros [Hev|Hev]%elem_of_app.
      * exists x. split; [by left | done].
      * destruct (IH Hev) as (x' & Hx' & Hin). exists x'. split; [by right | done].
    + rewrite bind_thrown. simpl.
      intros [Hev|Hev]%elem_of_app.
      * exists x. split; [by left | done].
      * destruct (IH Hev) as (x' & Hx' & Hin). exists x'. split; [by right | done].
  - rewrite bind_thrown. simpl. intros Hev. exists x. split; [by left | done].
Qed.

(** The adapter's events on an array are warnings for its message objects
    of unknown role. *)
Lemma convertJson_trace_origin
    (elements : list (option VercelChatMessage)) (ev : Effect) :
  ev ∈ trace (convertJsonMessages elements) →
  ∃ m, Some m ∈ elements ∧ unknown_role m ∧ ev = role_warning m.
Proof.
  intros ([m|] & Hm & Hev)%mapM_trace_origin; simpl in Hev;
    [| by apply elem_of_nil in Hev].
  rewrite convertMessage_trace in Hev. exists m. split; [done |].
  destruct (decide (unknown_role m)) as [Hunk|_].
  - split; [done |]. by apply list_elem_of_singleton in Hev.
  - by apply elem_of_nil in Hev.
Qed.




Lemma snoc_cases {A} (xs : option (list A)) :
  default [] xs = [] ∨ ∃ init x, xs = Some (init ++ [x]).
Proof.
  destruct xs as [xs|]; [| by left].
  destruct xs as [|x xs _] using rev_ind; [by left | right; eauto].
Qed.

Lemma POST_array_no_messages (world : World) (env : gmap string jsstring)
    (messages : option (list (option VercelChatMessage))) :
  default [] messages = [] →
  POST world env (mkRequest (Returned (JsonValue messages))) =
    ([], Returned (mkResponse 400 (ErrorJson (JS.lit "No messages provided")))).
Proof. destruct messages as [[|m ms]|]; by intros H. Qed.

Lemma POST_array_no_content (world : World) (env : gmap string jsstring)
    (history : list (option VercelChatMessage)) (last : option VercelChatMessage) :
  JS.truthy (last ≫= content) = false →
  POST world env (request_of_array (history ++ [last])) =
    ([], Returned (mkResponse 400
                     (ErrorJson (JS.lit "No current message content found")))).
Proof.
  intros H. unfold request_of_array. enter_POST.
  change (match last with Some x => content x | None => None end)
    with (last ≫= content).
  by rewrite H.
Qed.

Lemma POST_array_no_config (world : World) (env : gmap string jsstring)
    (history : list (option VercelChatMessage)) (last : option VercelChatMessage) :
  JS.truthy (last ≫= content) = true →
  configured env = false →
  POST world env (request_of_array (history ++ [last])) =
    ([], Returned (mkResponse 500
                     (ErrorJson (JS.lit "Missing environment variables")))).
Proof.
  intros H Henv. unfold request_of_array. enter_POST.
  change (match last with Some x => content x | None => None end)
    with (last ≫= content).
  by rewrite H, Henv.
Qed.

(** The handler on an array that passed the checks, unfolded up to the
    library calls, for each way the adapter can end. *)
Ltac array_paths world Hc Henv history :=
  unfold request_of_array; enter_POST; rewrite Hc, Henv;
  cbn [JS.truthy negb the default from_option id];
  rewrite (M_eta (convertJsonMessages history));
  destruct (outcome (convertJsonMessages history)) eqn:?;
  follow_calls world.

(** Settle the membership of an event in a concrete trace. *)
Ltac split_membership Hin :=
  repeat (apply elem_of_cons in Hin as [Hin|Hin]
          || apply elem_of_app in Hin as [Hin|Hin]);
  try discriminate Hin;
  try (by apply elem_of_nil in Hin);
  try (by apply convert_trace_warns in Hin as [? [=]]);
  try (by apply convertJson_trace_origin in Hin as (? & _ & _ & [=])).

(** How a request fares at the checks. *)
Lemma POST_request_cases (world : World) (env : gmap string jsstring)
    (req : NextRequest) :
  (∃ e, trace (POST world env req)
          = [ConsoleError (JS.lit "Chat API Error (Outer Catch in POST):") e]
        ∧ outcome (POST world env req)
          = Returned (mkResponse 500
                        (ErrorJson (JS.or_else (JS.message e)
                           (JS.lit "An unexpected error occurred in the chat API.")))))
  ∨ (∃ status err, (status = 400 ∨ status = 500 ∧ configured env = false)
        ∧ POST world env req = ([], Returned (mkResponse status (ErrorJson err))))
  ∨ (∃ history last text,
        req = request_of_array (history ++ [Some last])
        ∧ content last = Some text ∧ text ≠ [] ∧ configured env = true).
Proof.
  destruct req as [[[|messages]|e]].
  - left. by eexists.
  - destruct (snoc_cases messages) as [H|(history & last & ->)].
    { right; left. rewrite (POST_array_no_messages _ _ _ H). eauto. }
    change (mkRequest (Returned (JsonValue (Some (history ++ [last])))))
      with (request_of_array (history ++ [last])).
    destruct (JS.truthy (last ≫= content)) eqn:Hc.
    2:{ right; left. rewrite (POST_array_no_content _ _ _ _ Hc). eauto. }
    destruct (configured env) eqn:Henv.
    2:{ right; left. rewrite (POST_array_no_config _ _ _ _ Hc Henv). eauto 6. }
    right; right. destruct last as [last|]; [| discriminate Hc].
    destruct (truthy_the _ Hc) as [Hsome Hne].
    by exists history, last, (the (content last)).
  - left. by eexists.
Qed.





(** C10. The checks come in a fixed order and the first that fails decides
    the response, whatever the later ones would say: an empty or missing
    message list is answered 400 "No messages provided" under every
    environment; otherwise an empty or missing last content is answered 400
    "No current message content found" under every environment; only then
    does missing configuration give 500. So an empty list, or no [messages]
    property at all, together with absent configuration gets 400 and not
    500. *)
Theorem POST_check_order (world : World) (env : gmap string jsstring) :
  (∀ messages, default [] messages = [] →
     POST world env (request_with messages)
     = ([], Returned (mkResponse 400 (ErrorJson (JS.lit "No messages provided")))))
  ∧ (∀ history last, JS.truthy (content last) = false →
     POST world env (request_with (Some (history ++ [last])))
     = ([], Returned (mkResponse 400
                        (ErrorJson (JS.lit "No current message content found")))))
  ∧ (∀ history last, JS.truthy (content last) = true →
     configured env = false →
     POST world env (request_with (Some (history ++ [last])))
     = ([], Returned (mkResponse 500
                        (ErrorJson (JS.lit "Missing environment variables")))))
  ∧ (∀ messages resp, configured env = false →
     messages = None ∨ messages = Some [] →
     outcome (POST world env (request_with messages)) = Returned resp →
     status resp = 400 ∧ status resp ≠ 500).
Proof.
  split; [| split; [| split]].
  - apply POST_no_messages.
  - apply POST_no_content.
  - apply POST_no_config.
  - intros messages resp _ Hm Hresp.
    rewrite POST_no_messages in Hresp by (by destruct Hm as [-> | ->]).
    injection Hresp as <-. by split.
Qed.

Lemma POST_check_order_witness :
  POST Sample.quiet ∅ (request_with (Some []))
  = ([], Returned (mkResponse 400 (ErrorJson (JS.lit "No messages provided"))))
  ∧ POST Sample.quiet ∅ (request_with (Some [Sample.hi; Sample.no_content]))
    = ([], Returned (mkResponse 400
                       (ErrorJson (JS.lit "No current message content found"))))
  ∧ POST Sample.quiet ∅ (request_with (Some [Sample.hi; Sample.question]))
    = ([], Returned (mkResponse 500
                       (ErrorJson (JS.lit "Missing environment variables")))).
Proof.
  split; [| split].
  - apply (proj1 (POST_check_order Sample.quiet ∅) (Some [])). reflexivity.
  - apply (proj1 (proj2 (POST_check_order Sample.quiet ∅))
             [Sample.hi] Sample.no_content).
    reflexivity.
  - apply (proj1 (proj2 (proj2 (POST_check_order Sample.quiet ∅)))
             [Sample.hi] Sample.question); reflexivity.
Defined.

(** * Further properties of the sources *)

(** ** The message adapter *)

Lemma convert_cons (m : VercelChatMessage) (messages : list VercelChatMessage) :
  ∃ y ys,
    outcome (convertMessage m) = Returned y
    ∧ outcome (convertVercelMessagesToLangChainMessages messages) = Returned ys
    ∧ convertVercelMessagesToLangChainMessages (m :: messages)
      = (trace (convertMessage m)
           ++ trace (convertVercelMessagesToLangChainMessages messages),
         Returned (y :: ys)).
Proof.
  destruct (convertMessage_returns m) as [y Hy].
  destruct (convert_returns messages) as (ys & Hys & _).
  exists y, ys. split; [done |]. split; [done |].
  unfold convertVercelMessagesToLangChainMessages in *. simpl.
  rewrite (M_eta (convertMessage m)), Hy, bind_returned.
  rewrite (M_eta (mapM convertMessage messages)), Hys, bind_returned.
  simpl. by rewrite app_nil_r.
Qed.

(** X1. The adapter's only events are its warnings: it logs one for each
    message whose role is neither "user" nor "assistant", in the order of
    the list and naming that role, and nothing for the other messages. *)
Theorem adapter_warnings (messages : list VercelChatMessage) :
  trace (convertVercelMessagesToLangChainMessages messages)
  = role_warning <$> filter unknown_role messages.
Proof.
  induction messages as [|m messages IH]; [done |].
  destruct (convert_cons m messages) as (y & ys & _ & _ & ->).
  cbn [trace fst]. rewrite IH, convertMessage_trace.
  rewrite filter_cons. by destruct (decide (unknown_role m)).
Qed.

(** X2. An ai message in the adapter's output stands at the index of an
    assistant message with that content: no other role, known or not, is
    ever handed on as an assistant turn. *)
Theorem adapter_ai_only_from_assistant
    (messages : list VercelChatMessage) (out : list BaseMessage)
    (i : nat) (c : option jsstring) :
  outcome (convertVercelMessagesToLangChainMessages messages) = Returned out →
  out !! i = Some (AIMessage c) →
  ∃ m, messages !! i = Some m
       ∧ role m = Some (JS.lit "assistant") ∧ content m = c.
Proof.
  intros Hout Hi.
  destruct (convert_returns messages) as (out' & Hout' & Hall).
  rewrite Hout in Hout'. injection Hout' as <-.
  destruct (Forall2_lookup_r _ _ _ _ _ Hall Hi) as (m & Hm & Hconv).
  exists m. split; [done |].
  unfold convertMessage in Hconv. repeat case_decide; simpl in Hconv;
    try discriminate Hconv.
  injection Hconv as <-. by split.
Qed.

Lemma adapter_ai_only_from_assistant_witness :
  ∃ m, [Sample.question; Sample.hi] !! 1 = Some m
       ∧ role m = Some (JS.lit "assistant") ∧ content m = Some (JS.lit "Hi").
Proof.
  apply (adapter_ai_only_from_assistant [Sample.question; Sample.hi]
           [HumanMessage (Some (JS.lit "What is our refund policy?"));
            AIMessage (Some (JS.lit "Hi"))] 1 (Some (JS.lit "Hi")));
    reflexivity.
Defined.

(** X3. Converting a list that continues another continues its conversion:
    the messages and the warnings of [earlier ++ later] are those of
    [earlier] followed by those of [later], so the history of a longer
    conversation extends the history of the shorter one. *)
Theorem adapter_app (earlier later : list VercelChatMessage) :
  ∃ out1 out2,
    outcome (convertVercelMessagesToLangChainMessages earlier) = Returned out1
    ∧ outcome (convertVercelMessagesToLangChainMessages later) = Returned out2
    ∧ convertVercelMessagesToLangChainMessages (earlier ++ later)
      = (trace (convertVercelMessagesToLangChainMessages earlier)
           ++ trace (convertVercelMessagesToLangChainMessages later),
         Returned (out1 ++ out2)).
Proof.
  destruct (convert_returns later) as (out2 & Hout2 & _).
  induction earlier as [|m earlier (out1 & out2' & H1 & H2 & IH)].
  - exists [], out2. split; [done |]. split; [done |].
    simpl. rewrite <- Hout2. apply M_eta.
  - rewrite H2 in Hout2. injection Hout2 as ->.
    destruct (convert_cons m earlier) as (y & ys & Hy & Hys & Heq).
    rewrite H1 in Hys. injection Hys as <-.
    destruct (convert_cons m (earlier ++ later)) as (y' & ys' & Hy' & Hys' & Heq').
    rewrite Hy in Hy'. injection Hy' as <-.
    rewrite IH in Hys'. injection Hys' as <-.
    exists (y :: out1), out2. split; [by rewrite Heq |]. split; [done |].
    change ((m :: earlier) ++ later) with (m :: (earlier ++ later)).
    rewrite Heq', Heq, IH. cbn [trace fst]. by rewrite app_assoc.
Qed.

(** ** The retrieval tool *)

Lemma startsWith_app (p x : jsstring) : JS.startsWith p (p ++ x) = true.
Proof. induction p as [|a p IH]; [done |]. simpl. by rewrite N.eqb_refl. Qed.

(** How a call of the tool function went, by the query and the store. *)
Lemma search_cases (retriever : BaseRetrieverInterface) (input : ToolInput) :
  (JS.trim (queryOf input) = []
     ∧ search_knowledge_base retriever input = ([], Returned NO_QUERY_ERROR))
  ∨ (JS.trim (queryOf input) ≠ []
     ∧ ((retriever (queryOf input) = Returned []
         ∧ search_knowledge_base retriever input
           = (search_events (queryOf input) 0, Returned NOT_FOUND))
        ∨ (∃ doc docs,
             retriever (queryOf input) = Returned (doc :: docs)
             ∧ search_knowledge_base retriever input
               = (search_events (queryOf input) (length (doc :: docs)),
                  Returned (FOUND_HEADER
                              ++ JS.join DELIMITER (formatDocument <$> doc :: docs))))
        ∨ (∃ e t,
             retriever (queryOf input) = Thrown e
             ∧ store_queries t = [queryOf input]
             ∧ search_knowledge_base retriever input
               = (t, Returned (SEARCH_ERROR_PREFIX ++ JS.interpolate (JS.message e)))))).
Proof.
  destruct (decide (JS.trim (queryOf input) = [])) as [Hq|Hq].
  { left. split; [done | by apply search_blank]. }
  right. split; [done |].
  destruct (retriever (queryOf input)) as [[|doc docs]|e] eqn:Hr.
  - left. split; [done |]. by rewrite (search_answered _ _ _ Hq Hr).
  - right; left. exists doc, docs. split; [done |].
    by rewrite (search_answered _ _ _ Hq Hr).
  - right; right. eexists e, _. split; [done |].
    rewrite (search_failed _ _ _ Hq Hr). split; [| reflexivity]. reflexivity.
Qed.

(** X4. The tool function queries the store at most once: not at all for a
    blank query, and otherwise exactly once, with the query as it was given
    (not trimmed), whether the search then succeeds or fails. *)
Theorem search_tool_store_queries
    (retriever : BaseRetrieverInterface) (input : ToolInput) :
  store_queries (trace (search_knowledge_base retriever input))
  = if decide (JS.trim (queryOf input) = []) then [] else [queryOf input].
Proof.
  destruct (search_cases retriever input)
    as [[Hq ->]|[Hq [[_ ->]|[(doc & docs & _ & ->)|(e & t & _ & Ht & ->)]]]].
  - by rewrite decide_True.
  - by rewrite decide_False.
  - by rewrite decide_False.
  - rewrite decide_False by done. exact Ht.
Qed.

(** X5. The four kinds of answer cannot be mistaken for one another,
    whatever the documents contain and whatever the failure's message is.
    The answer is the "no query" error exactly for a blank query, the "no
    relevant information" sentence exactly when the store returned no
    document, begins with the "Found the following information" header
    exactly when the store returned documents, and begins with the "error
    occurred while searching" prefix exactly when the store failed. *)
Theorem search_tool_answer_kinds
    (retriever : BaseRetrieverInterface) (input : ToolInput) (result : jsstring) :
  outcome (search_knowledge_base retriever input) = Returned result →
  (result = NO_QUERY_ERROR ↔ JS.trim (queryOf input) = [])
  ∧ (result = NOT_FOUND ↔
       JS.trim (queryOf input) ≠ [] ∧ retriever (queryOf input) = Returned [])
  ∧ (JS.startsWith FOUND_HEADER result = true ↔
       JS.trim (queryOf input) ≠ []
       ∧ ∃ doc docs, retriever (queryOf input) = Returned (doc :: docs))
  ∧ (JS.startsWith SEARCH_ERROR_PREFIX result = true ↔
       JS.trim (queryOf input) ≠ []
       ∧ ∃ e, retriever (queryOf input) = Thrown e).
Proof.
  intros Hres.
  destruct (search_cases retriever input)
    as [[Hq Heq]|[Hq [[Hr Heq]|[(doc & docs & Hr & Heq)|(e & t & Hr & _ & Heq)]]]];
    rewrite Heq in Hres; apply Returned_inj in Hres as <-.
  - split; [done |]. split; [| split]; (split; [| by intros [? _]]).
    + intros H. vm_compute in H. discriminate H.
    + intros H. vm_compute in H. discriminate H.
    + intros H. vm_compute in H. discriminate H.
  - split; [| split; [| split]].
    + split; [| done]. intros H. vm_compute in H. discriminate H.
    + done.
    + split.
      * intros H. vm_compute in H. discriminate H.
      * intros (_ & d & ds & H). rewrite Hr in H. discriminate H.
    + split.
      * intros H. vm_compute in H. discriminate H.
      * intros (_ & e & H). rewrite Hr in H. discriminate H.
  - set (listing := JS.join DELIMITER (formatDocument <$> doc :: docs)).
    split; [| split; [| split]].
    + split; [| done]. intros H. vm_compute in H. discriminate H.
    + split.
      * intros H. vm_compute in H. discriminate H.
      * intros [_ H]. rewrite Hr in H. discriminate H.
    + split; [by eauto | intros _; apply startsWith_app].
    + split.
      * intros H. vm_compute in H. discriminate H.
      * intros (_ & e & H). rewrite Hr in H. discriminate H.
  - set (msg := JS.interpolate (JS.message e)).
    split; [| split; [| split]].
    + split; [| done]. intros H. vm_compute in H. discriminate H.
    + split.
      * intros H. vm_compute in H. discriminate H.
      * intros [_ H]. rewrite Hr in H. discriminate H.
    + split.
      * intros H. vm_compute in H. discriminate H.
      * intros (_ & d & ds & H). rewrite Hr in H. discriminate H.
    + split; [by eauto | intros _; apply startsWith_app].
Qed.

Lemma search_tool_answer_kinds_witness :
  JS.startsWith SEARCH_ERROR_PREFIX
    (JS.lit "Tool Error: An error occurred while searching the knowledge base: fetch failed")
  = true
  ↔ JS.trim (JS.lit " refund policy ") ≠ []
    ∧ ∃ e, Sample.failing_store (JS.lit " refund policy ") = Thrown e.
Proof.
  apply (search_tool_answer_kinds Sample.failing_store
           (InputString (JS.lit " refund policy "))).
  reflexivity.
Defined.

(** ** The POST handler *)

Lemma configured_inv (env : gmap string jsstring) :
  configured env = true →
  JS.truthy (env !! "SUPABASE_URL") = true
  ∧ JS.truthy (env !! "SUPABASE_ANON_KEY") = true
  ∧ JS.truthy (env !! "OPENAI_API_KEY") = true.
Proof. unfold configured. by intros [[??]%andb_true_iff ?]%andb_true_iff. Qed.


Lemma upstream_calls_convert (messages : list VercelChatMessage) :
  upstream_calls (trace (convertVercelMessagesToLangChainMessages messages)) = [].
Proof.
  pose proof (convert_trace_warns messages) as Hwarn.
  induction (trace (convertVercelMessagesToLangChainMessages messages))
    as [|ev t IH]; [done |].
  destruct (Hwarn ev) as [text ->]; [by left |].
  simpl. apply IH. intros ev' Hin. apply Hwarn. by right.
Qed.




(** X6. The handler calls into the store and model libraries only for a
    request that passed all three checks: a body that is not JSON or is
    [null], an empty or missing message list, an empty last content or
    missing configuration never causes a library call. *)
Theorem POST_calls_only_when_valid
    (world : World) (env : gmap string jsstring) (req : NextRequest)
    (c : UpstreamCall) :
  Upstream c ∈ trace (POST world env req) →
  ∃ history last text,
    json req = Returned (JsonValue (Some (history ++ [Some last])))
    ∧ content last = Some text ∧ text ≠ [] ∧ configured env = true.
Proof.
  intros Hin.
  destruct (POST_request_cases world env req)
    as [(e & Ht & _)|[(st & err & _ & Heq)|(history & last & text & -> & H)]].
  - rewrite Ht in Hin. split_membership Hin.
  - rewrite Heq in Hin. split_membership Hin.
  - by exists history, last, text.
Qed.

Lemma POST_calls_only_when_valid_witness :
  ∃ history last text,
    Returned (JsonValue (Some [Some Sample.hi; Some Sample.question]))
    = Returned (JsonValue (Some (history ++ [Some last])))
    ∧ content last = Some text ∧ text ≠ [] ∧ configured Sample.env = true.
Proof.
  apply (POST_calls_only_when_valid Sample.quiet Sample.env
           (request_with (Some [Sample.hi; Sample.question]))
           NewSupabaseVectorStore).
  vm_compute. do 3 right. left.
Defined.

(** X7. The values the handler passes to the libraries are those of the
    environment: the store client is created with the non-empty
    [SUPABASE_URL] and [SUPABASE_ANON_KEY], and the embeddings and chat
    models with the non-empty [OPENAI_API_KEY]. *)
Theorem POST_passes_configuration
    (world : World) (env : gmap string jsstring) (req : NextRequest) :
  (∀ url key, Upstream (CreateClient url key) ∈ trace (POST world env req) →
     env !! "SUPABASE_URL" = Some url ∧ url ≠ []
     ∧ env !! "SUPABASE_ANON_KEY" = Some key ∧ key ≠ [])
  ∧ (∀ apiKey,
       Upstream (NewOpenAIEmbeddings apiKey) ∈ trace (POST world env req)
       ∨ Upstream (NewChatOpenAI apiKey) ∈ trace (POST world env req) →
       env !! "OPENAI_API_KEY" = Some apiKey ∧ apiKey ≠ []).
Proof.
  assert (∀ c, Upstream c ∈ trace (POST world env req) →
               configured env = true
               ∧ ∀ run, c ∈ upstream_plan env run ∨ ∃ r, c = StreamEvents r) as Hplan.
  { intros c Hin.
    destruct (POST_request_cases world env req)
      as [(e & Ht & _)|[(st & err & _ & Heq)
                       |(history & last & [|u text] & -> & Hc & Hne & Henv)]];
      [rewrite Ht in Hin; split_membership Hin
      |rewrite Heq in Hin; split_membership Hin | done |].
    split; [done |]. intros run. revert Hin.
    array_paths world Hc Henv history; intros Hin; split_membership Hin;
      injection Hin as ->; unfold upstream_plan;
      first [ by right; eexists | left; rewrite !elem_of_cons; tauto ]. }
  split.
  - intros url key [Henv H]%Hplan.
    destruct (configured_inv _ Henv) as ([Hu Hu']%truthy_the & [Hk Hk']%truthy_the & _).
    destruct (H (mkAgentInput [] [])) as [Hin|[r [=]]].
    unfold upstream_plan in Hin. split_membership Hin.
    injection Hin as -> ->. by rewrite <- Hu, <- Hk.
  - intros apiKey Hany.
    assert (configured env = true
            ∧ (apiKey = the (env !! "OPENAI_API_KEY"))) as [Henv ->].
    { destruct Hany as [[Henv H]%Hplan|[Henv H]%Hplan]; (split; [done |]);
        (destruct (H (mkAgentInput [] [])) as [Hin|[r [=]]]);
        unfold upstream_plan in Hin; split_membership Hin; by injection Hin. }
    destruct (configured_inv _ Henv) as (_ & _ & [Ho Ho']%truthy_the).
    by rewrite <- Ho.
Qed.

Lemma POST_passes_configuration_witness :
  Sample.env !! "SUPABASE_URL" = Some (JS.lit "https://project.supabase.co")
  ∧ JS.lit "https://project.supabase.co" ≠ []
  ∧ Sample.env !! "SUPABASE_ANON_KEY" = Some (JS.lit "anon-key")
  ∧ JS.lit "anon-key" ≠ [].
Proof.
  apply (proj1 (POST_passes_configuration Sample.quiet Sample.env
                  (request_with (Some [Sample.hi; Sample.question])))).
  vm_compute. left.
Defined.



(** X9. The handler never looks at the role of the last message: two
    requests that differ only there get the same response and cause the
    same events, so the last message is the new turn whatever its role. *)
Theorem POST_ignores_last_role
    (world : World) (env : gmap string jsstring)
    (history : list VercelChatMessage) (role1 role2 c : option jsstring) :
  POST world env (request_with (Some (history ++ [mkMessage role1 c])))
  = POST world env (request_with (Some (history ++ [mkMessage role2 c]))).
Proof. enter_POST. reflexivity. Qed.

(** X10. The handler writes to the error console only when it answers from
    its [catch]: the entry carries the caught error, and the response is
    then 500 with that error's message, or with the fixed "unexpected
    error" text when the message is empty or missing. A response of status
    400 is returned without any event. *)
Theorem POST_console_error
    (world : World) (env : gmap string jsstring) (req : NextRequest) :
  (∀ heading e,
     ConsoleError heading e ∈ trace (POST world env req) →
     heading = JS.lit "Chat API Error (Outer Catch in POST):"
     ∧ outcome (POST world env req)
       = Returned (mkResponse 500
                     (ErrorJson (JS.or_else (JS.message e)
                        (JS.lit "An unexpected error occurred in the chat API.")))))
  ∧ (∀ err, outcome (POST world env req) = Returned (mkResponse 400 (ErrorJson err)) →
            trace (POST world env req) = []).
Proof.
  destruct (POST_request_cases world env req)
    as [(e0 & Ht & Hout)|[(st & err0 & _ & Heq)
                         |(history & last & [|u text] & -> & Hc & Hne & Henv)]];
    [| | done |].
  - rewrite Ht, Hout. split; [| discriminate].
    intros heading e Hin. split_membership Hin. by injection Hin as -> ->.
  - rewrite Heq. split; [| done]. intros heading e Hin. split_membership Hin.
  - split.
    + intros heading e.
      array_paths world Hc Henv history; intros Hin; split_membership Hin;
        by injection Hin as -> ->.
    + intros err. array_paths world Hc Henv history; discriminate.
Qed.

Lemma POST_console_error_witness :
  trace (POST Sample.quiet Sample.env
           (request_with (Some [Sample.hi; Sample.no_content]))) = [].
Proof.
  apply (proj2 (POST_console_error Sample.quiet Sample.env
                  (request_with (Some [Sample.hi; Sample.no_content])))
           (JS.lit "No current message content found")).
  reflexivity.
Defined.

(** ** The system prompt *)

Lemma replace_absent (pattern replacement s : jsstring) :
  pattern ≠ [] →
  JS.occurrences pattern s = 0 →
  replace pattern replacement s = s.
Proof.
  intros Hp. induction s as [|c s IH]; intros Hocc.
  - simpl. by destruct pattern.
  - cbn [JS.occurrences] in Hocc.
    destruct (JS.startsWith pattern (c :: s)) eqn:Hstart; [discriminate Hocc |].
    cbn [replace]. rewrite Hstart. f_equal. apply IH. exact Hocc.
Qed.

(** X11. The template in use has no "{USER_NAME}" placeholder, so the
    [replace] of the handler changes nothing: the content of the system
    message is the template itself whatever the user name is, and the
    name "Alex" does not occur in it. *)
Theorem system_prompt_without_name (name : jsstring) :
  systemPromptContent name = AGENT_SYSTEM_PROMPT_TEMPLATE
  ∧ JS.includes USER_NAME (systemPromptContent name) = false.
Proof.
  assert (systemPromptContent name = AGENT_SYSTEM_PROMPT_TEMPLATE) as ->.
  { apply replace_absent; [by vm_compute | by vm_compute]. }
  split; [reflexivity | by vm_compute].
Qed.

(** ** The chat page *)

Lemma trim_nonempty_visible (s : jsstring) :
  JS.trim s ≠ [] → Exists (λ c, JS.is_whitespace c = false) s.
Proof.
  intros Hne.
  assert (¬ Forall (λ c, JS.is_whitespace c = true) s) as Hnot.
  { intros Hall. by apply Hne, trim_blank. }
  apply not_Forall_Exists in Hnot; [| apply _].
  eapply Exists_impl; [exact Hnot |].
  intros c Hc. simpl in Hc. by destruct (JS.is_whitespace c).
Qed.

(** X12. The page enables its submit button exactly when no request is in
    flight and the input has a code unit that is not white space: an empty
    or blank input can never be submitted. *)
Theorem page_submit_enabled (st : Page.State) :
  Page.submitDisabled (Page.Chat st) = false
  ↔ Page.isLoading st = false
    ∧ Exists (λ c, JS.is_whitespace c = false) (Page.input st).
Proof.
  cbn [Page.Chat Page.submitDisabled]. rewrite orb_false_iff, negb_false_iff.
  split; intros [Hload Hin]; (split; [done |]).
  - apply trim_nonempty_visible. by destruct (JS.trim (Page.input st)).
  - apply trim_visible in Hin. by destruct (JS.trim (Page.input st)).
Qed.

(** X13. A text for which the page enables the submit button passes the
    handler's checks on the messages: a request whose last message has that
    text as content is never answered 400, whatever its history, and the
    configuration and the libraries decide between 200 and 500. *)
Theorem page_submission_accepted
    (st : Page.State) (world : World) (env : gmap string jsstring)
    (history : list VercelChatMessage) (r : option jsstring) :
  Page.submitDisabled (Page.Chat st) = false →
  ∃ resp,
    outcome (POST world env
               (request_with
                  (Some (history ++ [mkMessage r (Some (Page.input st))]))))
    = Returned resp
    ∧ (status resp = 200 ∨ status resp = 500).
Proof.
  cbn [Page.Chat Page.submitDisabled]. rewrite orb_false_iff, negb_false_iff.
  intros [_ Htrim].
  assert (JS.truthy (content (mkMessage r (Some (Page.input st)))) = true) as Hc.
  { cbn [content]. destruct (Page.input st); [discriminate Htrim | done]. }
  destruct (configured env) eqn:Henv.
  - destruct (POST_run_cases world env history _ Hc Henv)
      as [(c & e & err & _ & _ & ->)|(run & ->)]; eexists; split; eauto.
  - rewrite (POST_no_config _ _ _ _ Hc Henv). eexists; split; eauto.
Qed.

Lemma page_submission_accepted_witness :
  ∃ resp,
    outcome (POST Sample.quiet Sample.env
               (request_with
                  (Some ([Sample.hi]
                           ++ [mkMessage (Some (JS.lit "user"))
                                 (Some (JS.lit " What is our refund policy? "))]))))
    = Returned resp
    ∧ (status resp = 200 ∨ status resp = 500).
Proof.
  apply (page_submission_accepted
           (Page.mkState [Sample.hi] (JS.lit " What is our refund policy? ") false None)
           Sample.quiet Sample.env [Sample.hi] (Some (JS.lit "user"))).
  vm_compute. reflexivity.
Defined.

(** X14. The page presents a message as the user's, by its label and by
    the alignment of its row alike, exactly when its role is "user"; any
    other role is presented as the coach's. A role that is neither "user"
    nor "assistant" is thus shown as the coach's turn by the page while the
    adapter hands it to the model as a human message. *)
Theorem page_and_adapter_on_roles (m : VercelChatMessage) :
  (Page.label (Page.renderMessage m) = JS.lit "You (Alex)"
   ↔ role m = Some (JS.lit "user"))
  ∧ (Page.rowClass (Page.renderMessage m) = JS.lit "flex justify-end"
     ↔ role m = Some (JS.lit "user"))
  ∧ (role m ≠ Some (JS.lit "user") →
     Page.label (Page.renderMessage m) = JS.lit "AI Coach"
     ∧ Page.rowClass (Page.renderMessage m) = JS.lit "flex justify-start")
  ∧ (unknown_role m →
     Page.label (Page.renderMessage m) = JS.lit "AI Coach"
     ∧ ∃ c, outcome (convertMessage m) = Returned (HumanMessage c)).
Proof.
  unfold Page.renderMessage. cbn [Page.label Page.rowClass].
  destruct (decide (role m = Some (JS.lit "user"))) as [Hu|Hu].
  - split; [done |]. split; [done |]. split; [done |]. by intros [? _].
  - split; [split; [intros H; vm_compute in H; discriminate H | done] |].
    split; [split; [intros H; vm_compute in H; discriminate H | done] |].
    split; [done |]. intros [_ Ha]. split; [done |].
    rewrite (convertMessage_other m Hu Ha). by eexists.
Qed.

Lemma page_and_adapter_on_roles_witness :
  Page.label (Page.renderMessage Sample.tool_turn) = JS.lit "AI Coach"
  ∧ ∃ c, outcome (convertMessage Sample.tool_turn) = Returned (HumanMessage c).
Proof.
  apply (proj2 (proj2 (proj2 (page_and_adapter_on_roles Sample.tool_turn)))).
  split; vm_compute; discriminate.
Defined.

Lemma page_submit_enabled_witness :
  Page.submitDisabled
    (Page.Chat (Page.mkState [] (JS.lit " hello ") false None)) = false.
Proof.
  apply (proj2 (page_submit_enabled
                  (Page.mkState [] (JS.lit " hello ") false None))).
  split; [reflexivity |]. right. left. reflexivity.
Defined.

(** ** The handler and the adapter together *)

Lemma convert_warning_origin (messages : list VercelChatMessage) (ev : Effect) :
  ev ∈ trace (convertVercelMessagesToLangChainMessages messages) →
  ∃ m, m ∈ messages ∧ unknown_role m ∧ ev = role_warning m.
Proof.
  intros (m & Hm & Hev)%(mapM_trace_inv _ convertMessage_returns).
  rewrite convertMessage_trace in Hev. exists m. split; [done |].
  destruct (decide (unknown_role m)) as [Hunk|_].
  - split; [done |]. by apply list_elem_of_singleton in Hev.
  - by apply elem_of_nil in Hev.
Qed.

(** X15. Every warning the handler logs is the adapter's warning for a
    message of the history whose role is neither "user" nor "assistant":
    the last message, which is the new turn, is never converted and never
    warned about, whatever its role. *)
Theorem POST_warnings_from_history
    (world : World) (env : gmap string jsstring) (req : NextRequest) (w : jsstring) :
  ConsoleWarn w ∈ trace (POST world env req) →
  ∃ history last m,
    json req = Returned (JsonValue (Some (history ++ [last])))
    ∧ Some m ∈ history ∧ unknown_role m
    ∧ w = JS.lit "Unknown message role during conversion: "
          ++ JS.interpolate (role m).
Proof.
  destruct (POST_request_cases world env req)
    as [(e0 & Ht & _)|[(st & err0 & _ & Heq)
                      |(history & last & [|u text] & -> & Hc & Hne & Henv)]];
    [rewrite Ht; intros Hin; split_membership Hin
    |rewrite Heq; intros Hin; split_membership Hin | done |].
  array_paths world Hc Henv history; intros Hin; split_membership Hin;
    apply convertJson_trace_origin in Hin as (m & Hm & Hunk & [= ->]);
    by exists history, (Some last), m.
Qed.

Lemma POST_warnings_from_history_witness :
  ∃ history last m,
    Returned (JsonValue (Some [Some Sample.tool_turn; Some Sample.question]))
    = Returned (JsonValue (Some (history ++ [last])))
    ∧ Some m ∈ history ∧ unknown_role m
    ∧ JS.lit "Unknown message role during conversion: tool"
      = JS.lit "Unknown message role during conversion: "
        ++ JS.interpolate (role m).
Proof.
  apply (POST_warnings_from_history Sample.quiet Sample.env
           (request_with (Some [Sample.tool_turn; Sample.question]))
           (JS.lit "Unknown message role during conversion: tool")).
  vm_compute. do 8 right. left.
Defined.
